(** * databricks_query: a shallow embedding of [src/databricks_query.py]

    The module is a thin wrapper around two third-party libraries: the
    Databricks SQL client ([databricks.sql]) and pandas.  The wrapper's
    own code is sequential, mutates the fields of one handle object, prints
    status lines, and catches and re-raises exceptions.  It is embedded as a
    state-and-exception monad that also records what the code does:

    - the handle ([self]) and the collaborator's world are threaded as state;
      a state change made before an exception is raised survives it, as in
      Python;
    - every call of a collaborator, every [print] and two kinds of ghost
      marks (entry of a method of the module, origin of an exception) are
      written to an event trace, so that statements about what was called,
      what was printed and in which order can be made about the code. *)

From Stdlib Require Import String Ascii List ZArith Bool Arith Lia DecimalString.
Import ListNotations.
Local Open Scope string_scope.
Local Open Scope list_scope.

(** ** Values, rows, exceptions *)

(** A column value of a fetched row; rows are heterogeneous tuples. *)
Inductive value : Type :=
  | VNone
  | VInt (z : Z)
  | VStr (s : string)
  | VBool (b : bool).

(** A row as returned by [cursor.fetchall()]: a tuple of values. *)
Definition row : Type := list value.

(** An entry of [cursor.description]: a sequence whose item 0 is the column
    name; the remaining items (type code, sizes, ...) are never read. *)
Record desc : Type := mkDesc { d_name : string; d_rest : list value }.

(** A Python exception object.  [exn_str] is [str(e)], what an f-string
    interpolates; [exn_is_Exception] tells whether the object's class derives
    from [Exception], which is what [except Exception] tests
    ([KeyboardInterrupt] and [SystemExit] do not). *)
Record exn : Type := mkExn
  { exn_class : string; exn_str : string; exn_is_Exception : bool }.

(** Object identities of the collaborator's session and cursor objects. *)
Definition conn : Type := nat.
Definition cursor_id : Type := nat.

Inductive outcome (A : Type) : Type :=
  | Returned (a : A)
  | Raised (e : exn).
Arguments Returned {A} a.
Arguments Raised {A} e.

Definition is_raised {A} (r : outcome A) : bool :=
  match r with Raised _ => true | Returned _ => false end.

(** ** The handle: fields of [DatabricksConnection] *)

Record handle : Type := mkHandle
  { hostname : string;
    http_path : string;
    personal_access_token : string;
    catalog : option string;
    schema : option string;
    connection : option conn;
    cursor : option cursor_id }.

(** [DatabricksConnection.__init__] *)
Definition DatabricksConnection
  (hostname http_path personal_access_token : string)
  (catalog schema : option string) : handle :=
  {| hostname := hostname;
     http_path := http_path;
     personal_access_token := personal_access_token;
     catalog := catalog;
     schema := schema;
     connection := None;
     cursor := None |}.

Definition set_connection (c : option conn) (h : handle) : handle :=
  {| hostname := hostname h; http_path := http_path h;
     personal_access_token := personal_access_token h;
     catalog := catalog h; schema := schema h;
     connection := c; cursor := cursor h |}.

Definition set_cursor (k : option cursor_id) (h : handle) : handle :=
  {| hostname := hostname h; http_path := http_path h;
     personal_access_token := personal_access_token h;
     catalog := catalog h; schema := schema h;
     connection := connection h; cursor := k |}.

(** ** The tabular result *)

(** The part of a pandas [DataFrame] the module and its specification
    observe: the column labels and the rows. *)
Record DataFrame : Type := mkDataFrame
  { columns : list string; data : list row }.

(** [len(df)] *)
Definition len (df : DataFrame) : nat := length (data df).

Definition width_ok (n : nat) (r : row) : bool := Nat.eqb (length r) n.

(** Modelled from the spec: [pd.DataFrame(results, columns=columns)] is the
    third-party table constructor, absent from the repository.  The spec
    describes it as [build_table(rows, column_names) -> table], an ordered
    rows x named columns structure, whose construction fails
    (ConversionFailure) when a row's width is inconsistent with the column
    count. *)
Definition pd_DataFrame (results : list row) (cols : list string)
  : outcome DataFrame :=
  if forallb (width_ok (length cols)) results
  then Returned {| columns := cols; data := results |}
  else Raised {| exn_class := "ConversionFailure";
                 exn_str := "row width is inconsistent with column count";
                 exn_is_Exception := true |}.

(** The values of column number [i], top to bottom. *)
Definition column_values (df : DataFrame) (i : nat) : list value :=
  map (fun r => nth i r VNone) (data df).

(** The table as a mapping from column label to the column's values, in
    column order (what [df.to_dict("list")] shows). *)
Definition to_dict (df : DataFrame) : list (string * list value) :=
  combine (columns df)
          (map (column_values df) (seq 0 (length (columns df)))).

(** What [pull_databricks_data] returns: its annotation is [Any]. *)
Inductive pulled : Type :=
  | AsDataFrame (df : DataFrame)
  | AsRows (rows : list row).

(** ** Events *)

Inductive method : Type :=
  | MConnect | MExecuteQuery | MQueryToDataframe | MClose.

Inductive event : Type :=
  | EvEnter (m : method)                       (* ghost: a method starts *)
  | EvThrow (e : exn)                          (* ghost: an exception originates *)
  | EvPrint (line : string)                    (* print(...) *)
  | EvSqlConnect (host path auth token : string)  (* sql.connect(...) *)
  | EvCursor (c : conn)                        (* connection.cursor() *)
  | EvExecute (k : cursor_id) (query : string) (* cursor.execute(query) *)
  | EvFetchall (k : cursor_id)                 (* cursor.fetchall() *)
  | EvDescription (k : cursor_id)              (* cursor.description *)
  | EvDataFrame (results : list row) (cols : list string) (* pd.DataFrame(...) *)
  | EvCursorClose (k : cursor_id)              (* cursor.close() *)
  | EvConnClose (c : conn).                    (* connection.close() *)

Definition is_enter (m : method) (ev : event) : bool :=
  match ev, m with
  | EvEnter MConnect, MConnect => true
  | EvEnter MExecuteQuery, MExecuteQuery => true
  | EvEnter MQueryToDataframe, MQueryToDataframe => true
  | EvEnter MClose, MClose => true
  | _, _ => false
  end.

Definition is_sql_connect (ev : event) : bool :=
  match ev with EvSqlConnect _ _ _ _ => true | _ => false end.

Definition is_execute (ev : event) : bool :=
  match ev with EvExecute _ _ => true | _ => false end.

Definition is_dataframe (ev : event) : bool :=
  match ev with EvDataFrame _ _ => true | _ => false end.

(** The lines written to standard output, in order. *)
Fixpoint stdout (t : list event) : list string :=
  match t with
  | [] => []
  | EvPrint s :: t' => s :: stdout t'
  | _ :: t' => stdout t'
  end.

(** The exceptions that originated, in order. *)
Fixpoint thrown (t : list event) : list exn :=
  match t with
  | [] => []
  | EvThrow e :: t' => e :: thrown t'
  | _ :: t' => thrown t'
  end.

Definition count (p : event -> bool) (t : list event) : nat :=
  length (filter p t).

(** [str(n)] for a length. *)
Definition str_nat (n : nat) : string :=
  NilEmpty.string_of_uint (Nat.to_uint n).

(** ** The collaborator boundary *)

(** The Databricks SQL client as the module uses it.  [W] is whatever state
    the client and the remote warehouse have; every call may change it and
    may raise.  Nothing is assumed about the calls. *)
Record Collab (W : Type) : Type := mkCollab
  { sql_connect : string -> string -> string -> string -> W -> outcome conn * W;
    connection_cursor : conn -> W -> outcome cursor_id * W;
    cursor_execute : cursor_id -> string -> W -> outcome unit * W;
    cursor_fetchall : cursor_id -> W -> outcome (list row) * W;
    cursor_description : cursor_id -> W -> outcome (option (list desc)) * W;
    cursor_close : cursor_id -> W -> outcome unit * W;
    connection_close : conn -> W -> outcome unit * W }.
Arguments sql_connect {W} _ _ _ _ _ _.
Arguments connection_cursor {W} _ _ _.
Arguments cursor_execute {W} _ _ _ _.
Arguments cursor_fetchall {W} _ _ _.
Arguments cursor_description {W} _ _ _.
Arguments cursor_close {W} _ _ _.
Arguments connection_close {W} _ _ _.

(** ** The monad of the module's code *)

Section Program.

Context {W : Type}.
Variable C : Collab W.

(** State: [self] and the collaborator's world. *)
Definition st : Type := (handle * W)%type.

Definition Py (A : Type) : Type := st -> outcome A * st * list event.

Definition ret {A} (a : A) : Py A := fun s => (Returned a, s, []).

Definition bind {A B} (m : Py A) (f : A -> Py B) : Py B := fun s =>
  match m s with
  | (Returned a, s1, t1) =>
      let '(r, s2, t2) := f a s1 in (r, s2, t1 ++ t2)
  | (Raised e, s1, t1) => (Raised e, s1, t1)
  end.

Notation "x <- m ;; k" := (bind m (fun x => k))
  (at level 61, m at next level, right associativity).
Notation "m ;; k" := (bind m (fun _ => k))
  (at level 61, right associativity).

Definition emit (ev : event) : Py unit := fun s => (Returned tt, s, [ev]).

Definition print (line : string) : Py unit := emit (EvPrint line).

Definition enter (m : method) : Py unit := emit (EvEnter m).

(** An exception raised by the interpreter on the module's own code. *)
Definition throw {A} (e : exn) : Py A := fun s => (Raised e, s, [EvThrow e]).

(** The bare [raise] of a handler: the exception being handled goes on. *)
Definition reraise {A} (e : exn) : Py A := fun s => (Raised e, s, []).

Definition get_self : Py handle := fun s => (Returned (fst s), s, []).

Definition modify_self (f : handle -> handle) : Py unit :=
  fun s => (Returned tt, (f (fst s), snd s), []).

(** A call of the collaborator: the call is logged, the world advances, and
    an exception the call raises is marked as originating there. *)
Definition collab {A} (ev : event) (f : W -> outcome A * W) : Py A := fun s =>
  match f (snd s) with
  | (Returned a, w) => (Returned a, (fst s, w), [ev])
  | (Raised e, w) => (Raised e, (fst s, w), [ev; EvThrow e])
  end.

(** [try: body  except Exception as e: handler e] *)
Definition try_except {A} (body : Py A) (handler : exn -> Py A) : Py A :=
  fun s =>
  match body s with
  | (Returned a, s1, t1) => (Returned a, s1, t1)
  | (Raised e, s1, t1) =>
      if exn_is_Exception e
      then let '(r, s2, t2) := handler e s1 in (r, s2, t1 ++ t2)
      else (Raised e, s1, t1)
  end.

(** [try: body  finally: fin]: [fin] runs on every exit of [body]; an
    exception of [fin] replaces whatever [body] returned or raised. *)
Definition try_finally {A} (body : Py A) (fin : Py unit) : Py A := fun s =>
  let '(r, s1, t1) := body s in
  let '(rf, s2, t2) := fin s1 in
  match rf with
  | Returned _ => (r, s2, t1 ++ t2)
  | Raised e => (Raised e, s2, t1 ++ t2)
  end.

(** Attribute access on [None]. *)
Definition AttributeError_None (attr : string) : exn :=
  {| exn_class := "AttributeError";
     exn_str := ("'NoneType' object has no attribute '" ++ attr ++ "'")%string;
     exn_is_Exception := true |}.

(** Iteration over [None]. *)
Definition TypeError_not_iterable : exn :=
  {| exn_class := "TypeError";
     exn_str := "'NoneType' object is not iterable";
     exn_is_Exception := true |}.

(** ** The methods of [DatabricksConnection] *)

Definition connect : Py unit :=
  enter MConnect ;;
  try_except
    (h <- get_self ;;
     c <- collab (EvSqlConnect (hostname h) (http_path h) "pat"
                               (personal_access_token h))
                 (sql_connect C (hostname h) (http_path h) "pat"
                              (personal_access_token h)) ;;
     modify_self (set_connection (Some c)) ;;
     k <- collab (EvCursor c) (connection_cursor C c) ;;
     modify_self (set_cursor (Some k)) ;;
     print "✓ Connected to Databricks")
    (fun e =>
       print ("✗ Failed to connect to Databricks: " ++ exn_str e)%string ;;
       reraise e).

Definition execute_query (query : string) : Py (list row) :=
  enter MExecuteQuery ;;
  try_except
    (h <- get_self ;;
     match cursor h with
     | None => throw (AttributeError_None "execute")
     | Some k =>
         collab (EvExecute k query) (cursor_execute C k query) ;;
         results <- collab (EvFetchall k) (cursor_fetchall C k) ;;
         ret results
     end)
    (fun e =>
       print ("✗ Query execution failed: " ++ exn_str e)%string ;;
       reraise e).

Definition query_to_dataframe (query : string) : Py DataFrame :=
  enter MQueryToDataframe ;;
  try_except
    (results <- execute_query query ;;
     h <- get_self ;;
     description <-
       match cursor h with
       | None => throw (AttributeError_None "description")
       | Some k => collab (EvDescription k) (cursor_description C k)
       end ;;
     cols <-
       match description with
       | None => throw TypeError_not_iterable
       | Some ds => ret (map d_name ds)
       end ;;
     df <- collab (EvDataFrame results cols)
                  (fun w => (pd_DataFrame results cols, w)) ;;
     print ("✓ Retrieved " ++ str_nat (len df) ++ " rows")%string ;;
     ret df)
    (fun e =>
       print ("✗ Failed to convert results to DataFrame: " ++ exn_str e)%string ;;
       reraise e).

(** [if self.cursor:] and [if self.connection:] test the truth value of the
    field: [None] is false, and the client's cursor and session objects
    define neither [__bool__] nor [__len__], so they are true. *)
Definition close : Py unit :=
  enter MClose ;;
  h <- get_self ;;
  match cursor h with
  | Some k => collab (EvCursorClose k) (cursor_close C k)
  | None => ret tt
  end ;;
  match connection h with
  | Some c =>
      collab (EvConnClose c) (connection_close C c) ;;
      print "✓ Connection closed"
  | None => ret tt
  end.

(** ** The convenience entry point *)

Definition pull_body (query : string) (as_dataframe : bool) : Py pulled :=
  connect ;;
  if as_dataframe
  then df <- query_to_dataframe query ;; ret (AsDataFrame df)
  else rows <- execute_query query ;; ret (AsRows rows).

(** [pull_databricks_data]: the local handle [db] is part of the final
    state, so that it can be inspected after the call. *)
Definition pull_databricks_data
  (hostname http_path personal_access_token query : string)
  (as_dataframe : bool) (w : W) : outcome pulled * st * list event :=
  let db := DatabricksConnection hostname http_path personal_access_token
                                 None None in
  try_finally (pull_body query as_dataframe) close (db, w).

End Program.

Arguments ret {W A} a s.
Arguments bind {W A B} m f s.
Arguments try_except {W A} body handler s.
Arguments try_finally {W A} body fin s.

(** ** Scripted sessions

    A collaborator without state of its own, answering each kind of call
    with a fixed outcome: the test doubles of the scenarios. *)

Record script : Type := mkScript
  { on_connect : outcome conn;
    on_cursor : outcome cursor_id;
    on_execute : outcome unit;
    on_fetchall : outcome (list row);
    on_description : outcome (option (list desc));
    on_cursor_close : outcome unit;
    on_connection_close : outcome unit }.

Definition scripted (p : script) : Collab unit :=
  {| sql_connect := fun _ _ _ _ w => (on_connect p, w);
     connection_cursor := fun _ w => (on_cursor p, w);
     cursor_execute := fun _ _ w => (on_execute p, w);
     cursor_fetchall := fun _ w => (on_fetchall p, w);
     cursor_description := fun _ w => (on_description p, w);
     cursor_close := fun _ w => (on_cursor_close p, w);
     connection_close := fun _ w => (on_connection_close p, w) |}.

Definition example_rows : list row :=
  [ [VInt 1; VStr "a"]; [VInt 2; VStr "b"] ].

Definition example_description : list desc :=
  [ mkDesc "id" []; mkDesc "name" [] ].

(** The session of the spec's scenarios: every call succeeds, the fetch
    returns [(1, "a"), (2, "b")] and the columns are named id and name. *)
Definition example_script : script :=
  {| on_connect := Returned 7;
     on_cursor := Returned 8;
     on_execute := Returned tt;
     on_fetchall := Returned example_rows;
     on_description := Returned (Some example_description);
     on_cursor_close := Returned tt;
     on_connection_close := Returned tt |}.

Definition example_session : Collab unit := scripted example_script.

(** A handle as [connect] leaves it on the example session. *)
Definition connected_handle : handle :=
  set_cursor (Some 8)
    (set_connection (Some 7)
       (DatabricksConnection "adb-1.azuredatabricks.net"
          "/sql/1.0/warehouses/w1" "dapi-secret" None None)).

Definition QueryFailure : exn :=
  {| exn_class := "ServerOperationError";
     exn_str := "syntax error";
     exn_is_Exception := true |}.

Definition ConnectionFailure : exn :=
  {| exn_class := "RequestError";
     exn_str := "host unreachable";
     exn_is_Exception := true |}.

Definition CloseFailure : exn :=
  {| exn_class := "RequestError";
     exn_str := "connection reset";
     exn_is_Exception := true |}.

Definition with_execute (r : outcome unit) (p : script) : script :=
  {| on_connect := on_connect p; on_cursor := on_cursor p;
     on_execute := r; on_fetchall := on_fetchall p;
     on_description := on_description p;
     on_cursor_close := on_cursor_close p;
     on_connection_close := on_connection_close p |}.

Definition with_connect (r : outcome conn) (p : script) : script :=
  {| on_connect := r; on_cursor := on_cursor p;
     on_execute := on_execute p; on_fetchall := on_fetchall p;
     on_description := on_description p;
     on_cursor_close := on_cursor_close p;
     on_connection_close := on_connection_close p |}.

Definition with_cursor (r : outcome cursor_id) (p : script) : script :=
  {| on_connect := on_connect p; on_cursor := r;
     on_execute := on_execute p; on_fetchall := on_fetchall p;
     on_description := on_description p;
     on_cursor_close := on_cursor_close p;
     on_connection_close := on_connection_close p |}.

Definition with_cursor_close (r : outcome unit) (p : script) : script :=
  {| on_connect := on_connect p; on_cursor := on_cursor p;
     on_execute := on_execute p; on_fetchall := on_fetchall p;
     on_description := on_description p;
     on_cursor_close := r;
     on_connection_close := on_connection_close p |}.

(** ** Observing a run *)

Definition result {W A} (x : outcome A * (handle * W) * list event)
  : outcome A := fst (fst x).

Definition final {W A} (x : outcome A * (handle * W) * list event)
  : handle * W := snd (fst x).

Definition trace {W A} (x : outcome A * (handle * W) * list event)
  : list event := snd x.

(** * Scenarios and the vocabulary of the statements *)

(** ** Failure reporting *)

(** The claim as the specification words it: an operation that fails lets
    the original exception through and has printed exactly one line. *)
Definition reported_once {W A} (x : outcome A * (handle * W) * list event)
  : Prop :=
  forall e, result x = Raised e ->
    thrown (trace x) = [e] /\ length (stdout (trace x)) = 1.

Definition failing_query_session : Collab unit :=
  scripted (with_execute (Raised QueryFailure) example_script).

(** The diagnostics a failing method prints for exception [e]. *)
Definition diagnostics (e : exn) (prefixes : list string) : list string :=
  if exn_is_Exception e
  then map (fun p => (p ++ exn_str e)%string) prefixes
  else [].

Definition connect_failed : string := "✗ Failed to connect to Databricks: ".
Definition query_failed : string := "✗ Query execution failed: ".
Definition convert_failed : string :=
  "✗ Failed to convert results to DataFrame: ".

(** ** The operations of the handle, as a caller invokes them *)

Inductive operation : Type :=
  | Connect
  | ExecuteQuery (query : string)
  | QueryToDataframe (query : string)
  | Close.

(** What a call hands back to its caller. *)
Inductive observed : Type :=
  | Nothing
  | Rows (rs : list row)
  | Table (df : DataFrame).

Definition observe {W A} (f : A -> observed)
  (x : outcome A * (handle * W) * list event)
  : outcome observed * (handle * W) * list event :=
  match x with
  | (Returned a, s, t) => (Returned (f a), s, t)
  | (Raised e, s, t) => (Raised e, s, t)
  end.

Definition perform {W} (C : Collab W) (o : operation) (s : handle * W)
  : outcome observed * (handle * W) * list event :=
  match o with
  | Connect => observe (fun _ => Nothing) (connect C s)
  | ExecuteQuery q => observe Rows (execute_query C q s)
  | QueryToDataframe q => observe Table (query_to_dataframe C q s)
  | Close => observe (fun _ => Nothing) (close C s)
  end.

(** The prefixes of the lines an operation prints when it fails in
    state [s]: one per [except] clause the exception passes through. *)
Definition failure_lines {W} (C : Collab W) (o : operation) (s : handle * W)
  : list string :=
  match o with
  | Connect => [connect_failed]
  | ExecuteQuery _ => [query_failed]
  | QueryToDataframe q =>
      if is_raised (result (execute_query C q s))
      then [query_failed; convert_failed]
      else [convert_failed]
  | Close => []
  end.

(** ** Releasing resources *)

Definition is_release (ev : event) : bool :=
  match ev with
  | EvCursorClose _ | EvConnClose _ => true
  | _ => false
  end.

(** The release calls [close] makes for the objects a handle stores: the
    cursor's first, then the session's. *)
Definition releases (h : handle) : list event :=
  match cursor h with Some k => [EvCursorClose k] | None => [] end ++
  match connection h with Some c => [EvConnClose c] | None => [] end.

(** The collaborator's two [close] methods never raise. *)
Definition closes_never_raise {W} (C : Collab W) : Prop :=
  (forall k w, is_raised (fst (cursor_close C k w)) = false) /\
  (forall c w, is_raised (fst (connection_close C c w)) = false).

(** The claim as the specification words it: [close] never raises, and a
    second [close] finds the resources closed and skips them. *)
Definition close_is_idempotent {W} (C : Collab W) (s : handle * W) : Prop :=
  let first := close C s in
  let second := close C (final first) in
  is_raised (result first) = false /\
  is_raised (result second) = false /\
  filter is_release (trace second) = [].

Definition AlreadyClosed : exn :=
  {| exn_class := "Error"; exn_str := "Already closed";
     exn_is_Exception := true |}.

(** Closing object [i] in a world that lists the closed objects. *)
Definition close_once (i : nat) (w : list nat) : outcome unit * list nat :=
  if existsb (Nat.eqb i) w then (Raised AlreadyClosed, w)
  else (Returned tt, i :: w).

(** A session in the style of drivers that reject operations on a closed
    object: the world is the list of closed object identities, and closing
    one of them again raises. *)
Definition strict_session : Collab (list nat) :=
  {| sql_connect := fun _ _ _ _ w => (Returned 7, w);
     connection_cursor := fun _ w => (Returned 8, w);
     cursor_execute := fun _ _ w => (Returned tt, w);
     cursor_fetchall := fun _ w => (Returned example_rows, w);
     cursor_description := fun _ w => (Returned (Some example_description), w);
     cursor_close := close_once;
     connection_close := close_once |}.

(** [connect] on a new handle, then [close]. *)
Definition open_then_close {W} (C : Collab W)
  (hostname http_path personal_access_token : string) (w : W)
  : outcome unit * (handle * W) * list event :=
  bind (connect C) (fun _ => close C)
    (DatabricksConnection hostname http_path personal_access_token None None,
     w).

(** The claim as the specification words it: no session, no cursor held. *)
Definition holds_nothing (h : handle) : Prop :=
  connection h = None /\ cursor h = None.

(** ** The entry point *)

(** The claim as the specification words it: [close] runs once, nothing is
    executed after a failed [connect], and a failure of the body is the
    failure the caller sees. *)
Definition close_runs_once_and_never_masks {W} (C : Collab W)
  (host path token q : string) (as_df : bool) (w : W) : Prop :=
  let s0 := (DatabricksConnection host path token None None, w) in
  let x := pull_databricks_data C host path token q as_df w in
  count (is_enter MClose) (trace x) = 1 /\
  (is_raised (result (connect C s0)) = true ->
     count (is_enter MExecuteQuery) (trace x) = 0 /\
     count is_execute (trace x) = 0) /\
  (forall e, result (pull_body C q as_df s0) = Raised e ->
     result x = Raised e).

(** The query fails and then the cursor cannot be closed either. *)
Definition failing_query_and_close_session : Collab unit :=
  scripted (with_cursor_close (Raised CloseFailure)
              (with_execute (Raised QueryFailure) example_script)).

Definition unreachable_session : Collab unit :=
  scripted (with_connect (Raised ConnectionFailure) example_script).

(** ** Tables *)

(** Every row has as many values as there are column names. *)
Definition rows_fit (n : nat) (rows : list row) : Prop :=
  Forall (fun r => length r = n) rows.

(** ** Connection parameters *)

(** The claim as the specification words it: every connection attempt is
    made with a non-empty hostname, path and token. *)
Definition attempts_have_required_fields (t : list event) : Prop :=
  forall host path auth token,
    In (EvSqlConnect host path auth token) t ->
    host <> "" /\ path <> "" /\ token <> "".

(** ** The access token *)

Definition with_token (token : string) (h : handle) : handle :=
  {| hostname := hostname h; http_path := http_path h;
     personal_access_token := token;
     catalog := catalog h; schema := schema h;
     connection := connection h; cursor := cursor h |}.

(** A caller's script: operations invoked one after the other on the same
    handle, each outcome kept, failures not stopping the script. *)
Fixpoint perform_all {W} (C : Collab W) (ops : list operation)
  (s : handle * W) : list (outcome observed) * (handle * W) * list event :=
  match ops with
  | [] => ([], s, [])
  | o :: ops' =>
      let '(r, s1, t1) := perform C o s in
      let '(rs, s2, t2) := perform_all C ops' s1 in
      (r :: rs, s2, t1 ++ t2)
  end.

(** Identical collaborator behaviour for two tokens: [sql.connect], the
    only call that receives the token, answers both in the same way. *)
Definition token_blind {W} (C : Collab W) (t1 t2 : string) : Prop :=
  forall host path auth w,
    sql_connect C host path auth t1 w = sql_connect C host path auth t2 w.

Definition unauthorized_session : Collab unit :=
  scripted (with_connect
              (Raised {| exn_class := "RequestError";
                         exn_str := "401 Unauthorized";
                         exn_is_Exception := true |})
              example_script).

(** ** A partly opened handle *)

Definition with_connection_close (r : outcome unit) (p : script) : script :=
  {| on_connect := on_connect p; on_cursor := on_cursor p;
     on_execute := on_execute p; on_fetchall := on_fetchall p;
     on_description := on_description p;
     on_cursor_close := on_cursor_close p;
     on_connection_close := r |}.

(** The claim as it is worded: when [connect] fails between the creation
    of the session and that of the cursor, the handle stores the session
    and no cursor, and the following [close] releases the session, only
    it, and does not raise. *)
Definition cleanup_after_partial_open {W} (C : Collab W) (h : handle) (w : W)
  : Prop :=
  forall c w1 e w2,
    sql_connect C (hostname h) (http_path h) "pat" (personal_access_token h) w
      = (Returned c, w1) ->
    connection_cursor C c w1 = (Raised e, w2) ->
    connection (fst (final (connect C (h, w)))) = Some c /\
    cursor (fst (final (connect C (h, w)))) = None /\
    filter is_release (trace (close C (final (connect C (h, w)))))
      = [EvConnClose c] /\
    is_raised (result (close C (final (connect C (h, w))))) = false.

(** The session is created, the cursor is refused, and the session then
    cannot be closed. *)
Definition half_open_session : Collab unit :=
  scripted (with_connection_close (Raised CloseFailure)
              (with_cursor (Raised ConnectionFailure) example_script)).

(** ** Scripts, calls and printed lines *)

Definition with_catalog_schema (cat sch : option string) (h : handle)
  : handle :=
  {| hostname := hostname h; http_path := http_path h;
     personal_access_token := personal_access_token h;
     catalog := cat; schema := sch;
     connection := connection h; cursor := cursor h |}.

(** The exceptions the caller of a script received, in order. *)
Fixpoint failures {A} (rs : list (outcome A)) : list exn :=
  match rs with
  | [] => []
  | Raised e :: rs' => e :: failures rs'
  | Returned _ :: rs' => failures rs'
  end.

(** The events that are calls of a collaborator. *)
Definition is_call (ev : event) : bool :=
  match ev with
  | EvEnter _ | EvThrow _ | EvPrint _ => false
  | _ => true
  end.

Inductive call_kind : Type :=
  | KSqlConnect | KCursor | KExecute | KFetchall | KDescription
  | KDataFrame | KCursorClose | KConnClose.

Definition has_kind (kd : call_kind) (ev : event) : bool :=
  match kd, ev with
  | KSqlConnect, EvSqlConnect _ _ _ _ => true
  | KCursor, EvCursor _ => true
  | KExecute, EvExecute _ _ => true
  | KFetchall, EvFetchall _ => true
  | KDescription, EvDescription _ => true
  | KDataFrame, EvDataFrame _ _ => true
  | KCursorClose, EvCursorClose _ => true
  | KConnClose, EvConnClose _ => true
  | _, _ => false
  end.

(** The lines the module can print, given the exceptions [es] that
    originated: three status lines, and a diagnostic made of a fixed prefix
    and the text of one of these exceptions. *)
Definition module_line (es : list exn) (line : string) : Prop :=
  line = "✓ Connected to Databricks" \/
  line = "✓ Connection closed" \/
  (exists n, line = ("✓ Retrieved " ++ str_nat n ++ " rows")%string) \/
  (exists e pfx,
     In e es /\ In pfx [connect_failed; query_failed; convert_failed] /\
     line = (pfx ++ exn_str e)%string).

(** The lines the handle's methods print in a run with trace [t]: the two
    fixed status lines, the row count of a table that the constructor
    returned during the run, and a diagnostic made of a fixed prefix and
    the text of an exception that originated during the run. *)
Definition printed_line (t : list event) (line : string) : Prop :=
  line = "✓ Connected to Databricks" \/
  line = "✓ Connection closed" \/
  (exists rows cols df,
     In (EvDataFrame rows cols) t /\
     pd_DataFrame rows cols = Returned df /\
     line = ("✓ Retrieved " ++ str_nat (len df) ++ " rows")%string) \/
  (exists e pfx,
     In e (thrown t) /\
     In pfx [connect_failed; query_failed; convert_failed] /\
     line = (pfx ++ exn_str e)%string).

(** A session that hands out a new object identity at every [sql.connect]
    and at every [cursor()]: the world is the next identity. *)
Definition counting_session : Collab nat :=
  {| sql_connect := fun _ _ _ _ n => (Returned n, S n);
     connection_cursor := fun _ n => (Returned n, S n);
     cursor_execute := fun _ _ n => (Returned tt, n);
     cursor_fetchall := fun _ n => (Returned example_rows, n);
     cursor_description := fun _ n => (Returned (Some example_description), n);
     cursor_close := fun _ n => (Returned tt, n);
     connection_close := fun _ n => (Returned tt, n) |}.

(** The example session for a statement that returns no result set: the
    cursor has no description and nothing is fetched. *)
Definition no_result_set_session : Collab unit :=
  scripted {| on_connect := Returned 7;
              on_cursor := Returned 8;
              on_execute := Returned tt;
              on_fetchall := Returned [];
              on_description := Returned None;
              on_cursor_close := Returned tt;
              on_connection_close := Returned tt |}.

(** The example session with an empty result set. *)
Definition empty_result_session : Collab unit :=
  scripted {| on_connect := Returned 7;
              on_cursor := Returned 8;
              on_execute := Returned tt;
              on_fetchall := Returned [];
              on_description := Returned (Some example_description);
              on_cursor_close := Returned tt;
              on_connection_close := Returned tt |}.

(** The cursor of the example session cannot be closed. *)
Definition stuck_cursor_session : Collab unit :=
  scripted (with_cursor_close (Raised CloseFailure) example_script).

(** The cursor is stored only together with a session. *)
Definition cursor_has_session (h : handle) : Prop :=
  cursor h <> None -> connection h <> None.

(** [h'] has the connection parameters of [h]. *)
Definition same_parameters (h h' : handle) : Prop :=
  hostname h' = hostname h /\ http_path h' = http_path h /\
  personal_access_token h' = personal_access_token h /\
  catalog h' = catalog h /\ schema h' = schema h.

(** The handle a script ends with. *)
Definition handle_after {W A} (x : A * (handle * W) * list event) : handle :=
  fst (snd (fst x)).

(** [connect] called twice in a row on the same handle. *)
Definition connect_twice {W} (C : Collab W) (s : handle * W)
  : outcome unit * (handle * W) * list event :=
  bind (connect C) (fun _ => connect C) s.

(** * Proof machinery *)

Ltac unfold_py :=
  unfold pull_databricks_data, pull_body, query_to_dataframe, execute_query,
    connect, close, try_finally, try_except, bind, collab, emit,
    print, enter, throw, reraise, get_self, modify_self, ret,
    result, final, trace in *;
  simpl in *.

(** Case analysis on the next collaborator call, or on the next test the
    code makes, whichever blocks the evaluation. *)
Ltac next_case :=
  match goal with
  | |- context [sql_connect ?cc ?a1 ?a2 ?a3 ?a4 ?a5] =>
      let E := fresh "Econnect" in
      destruct (sql_connect cc a1 a2 a3 a4 a5) as [[?c|?e] ?w] eqn:E
  | |- context [connection_cursor ?cc ?a1 ?a2] =>
      let E := fresh "Ecursor" in
      destruct (connection_cursor cc a1 a2) as [[?k|?e] ?w] eqn:E
  | |- context [cursor_execute ?cc ?a1 ?a2 ?a3] =>
      let E := fresh "Eexecute" in
      destruct (cursor_execute cc a1 a2 a3) as [[[]|?e] ?w] eqn:E
  | |- context [cursor_fetchall ?cc ?a1 ?a2] =>
      let E := fresh "Efetchall" in
      destruct (cursor_fetchall cc a1 a2) as [[?rows|?e] ?w] eqn:E
  | |- context [cursor_description ?cc ?a1 ?a2] =>
      let E := fresh "Edescription" in
      destruct (cursor_description cc a1 a2) as [[[?ds|]|?e] ?w] eqn:E
  | |- context [cursor_close ?cc ?a1 ?a2] =>
      let E := fresh "Ecursor_close" in
      destruct (cursor_close cc a1 a2) as [[[]|?e] ?w] eqn:E
  | |- context [connection_close ?cc ?a1 ?a2] =>
      let E := fresh "Econn_close" in
      destruct (connection_close cc a1 a2) as [[[]|?e] ?w] eqn:E
  | |- context [pd_DataFrame ?a1 ?a2] =>
      let E := fresh "Etable" in
      destruct (pd_DataFrame a1 a2) as [?df|?e] eqn:E
  | |- context [match cursor ?a1 with _ => _ end] =>
      let E := fresh "Ecur" in
      destruct (cursor a1) as [?k|] eqn:E
  | |- context [match connection ?a1 with _ => _ end] =>
      let E := fresh "Econ" in
      destruct (connection a1) as [?c|] eqn:E
  | |- context [if exn_is_Exception ?a1 then _ else _] =>
      let E := fresh "Eclass" in
      destruct (exn_is_Exception a1) eqn:E
  end; simpl in *.

Ltac run := unfold_py; repeat next_case.

(** After [run], with the method's result assumed to be a given outcome:
    the cases whose result differs, or whose tests contradict each other,
    go away. *)
Ltac settle :=
  let H := fresh "H" in
  intros H; inversion H; subst;
  try congruence; try (cbn in *; congruence); auto.

(** * Failure reporting (C1) *)

(** C1, counterexample: on a connected handle whose [cursor.execute] raises,
    [query_to_dataframe] re-raises that exception but two diagnostics are
    printed for it, one by [execute_query] and one by [query_to_dataframe]
    itself. *)
Lemma query_failure_reported_twice :
  ~ reported_once
      (query_to_dataframe failing_query_session "SELECT 1"
         (connected_handle, tt)).
Proof.
  intros H. destruct (H QueryFailure eq_refl) as [_ Hlen].
  vm_compute in Hlen. discriminate Hlen.
Qed.

Example query_failure_stdout :
  stdout (trace (query_to_dataframe failing_query_session "SELECT 1"
                   (connected_handle, tt)))
  = [ "✗ Query execution failed: syntax error";
      "✗ Failed to convert results to DataFrame: syntax error" ].
Proof. reflexivity. Qed.

Section Reporting.

Context {W : Type}.
Variable C : Collab W.

Lemma connect_reports (s : handle * W) (e : exn) :
  result (connect C s) = Raised e ->
  thrown (trace (connect C s)) = [e] /\
  stdout (trace (connect C s)) = diagnostics e [connect_failed].
Proof.
  destruct s as [h w]. unfold diagnostics. run; settle.
Qed.

Lemma execute_query_reports (q : string) (s : handle * W) (e : exn) :
  result (execute_query C q s) = Raised e ->
  thrown (trace (execute_query C q s)) = [e] /\
  stdout (trace (execute_query C q s)) = diagnostics e [query_failed].
Proof.
  destruct s as [h w]. unfold diagnostics. run; settle.
Qed.

Lemma query_to_dataframe_reports (q : string) (s : handle * W) (e : exn) :
  result (query_to_dataframe C q s) = Raised e ->
  thrown (trace (query_to_dataframe C q s)) = [e] /\
  stdout (trace (query_to_dataframe C q s)) =
    diagnostics e
      (if is_raised (result (execute_query C q s))
       then [query_failed; convert_failed]
       else [convert_failed]).
Proof.
  destruct s as [h w]. unfold diagnostics. run; settle.
Qed.

Lemma close_reports (s : handle * W) (e : exn) :
  result (close C s) = Raised e ->
  thrown (trace (close C s)) = [e] /\ stdout (trace (close C s)) = [].
Proof.
  destruct s as [h w]. run; settle.
Qed.

End Reporting.

Lemma observe_result {W A} (f : A -> observed)
  (x : outcome A * (handle * W) * list event) (e : exn) :
  result (observe f x) = Raised e -> result x = Raised e.
Proof. destruct x as [[[a|e'] s] t]; simpl; intros H; inversion H; auto. Qed.

Lemma observe_trace {W A} (f : A -> observed)
  (x : outcome A * (handle * W) * list event) :
  trace (observe f x) = trace x.
Proof. destruct x as [[[a|e'] s] t]; reflexivity. Qed.

(** C1 (amended): whichever operation fails, exactly one exception
    originated and the caller receives that very exception; what is printed
    for it is one diagnostic per [except Exception] clause it crosses: one
    line for [connect] and for [execute_query], two lines for
    [query_to_dataframe] when the failure comes out of its call of
    [execute_query] and one line otherwise, and no line at all for [close],
    which has no handler, or for an exception that is not an [Exception]. *)
Theorem failure_reported_per_handler_and_reraised
  {W} (C : Collab W) (o : operation) (s : handle * W) (e : exn) :
  result (perform C o s) = Raised e ->
  thrown (trace (perform C o s)) = [e] /\
  stdout (trace (perform C o s)) = diagnostics e (failure_lines C o s).
Proof.
  intros H. destruct o as [|q|q|]; simpl in *;
    apply observe_result in H; rewrite observe_trace.
  - now apply connect_reports.
  - now apply execute_query_reports.
  - now apply query_to_dataframe_reports.
  - destruct (close_reports C s e H) as [Ht Hs]. split; [exact Ht|].
    rewrite Hs. unfold diagnostics. now destruct (exn_is_Exception e).
Qed.

Lemma failure_reported_per_handler_and_reraised_witness :
  result (perform failing_query_session (QueryToDataframe "SELECT 1")
            (connected_handle, tt)) = Raised QueryFailure /\
  thrown (trace (perform failing_query_session (QueryToDataframe "SELECT 1")
                   (connected_handle, tt))) = [QueryFailure] /\
  stdout (trace (perform failing_query_session (QueryToDataframe "SELECT 1")
                   (connected_handle, tt)))
  = diagnostics QueryFailure
      (failure_lines failing_query_session (QueryToDataframe "SELECT 1")
         (connected_handle, tt)).
Proof.
  split; [reflexivity|].
  apply (failure_reported_per_handler_and_reraised failing_query_session
           (QueryToDataframe "SELECT 1") (connected_handle, tt) QueryFailure).
  reflexivity.
Defined.

(** * Close (C2, C3) *)

(** C2, counterexample: on a connected handle the second [close] does not
    skip the closed cursor and session: it calls [close] on both again. *)
Lemma second_close_releases_again :
  ~ close_is_idempotent example_session (connected_handle, tt).
Proof.
  intros [_ [_ H]]. vm_compute in H. discriminate H.
Qed.

Example second_close_raises_on_strict_session :
  let first := close strict_session (connected_handle, []) in
  result first = Returned tt /\
  result (close strict_session (final first)) = Raised AlreadyClosed.
Proof. split; reflexivity. Qed.

Section Closing.

Context {W : Type}.
Variable C : Collab W.

Lemma close_keeps_fields (s : handle * W) : fst (final (close C s)) = fst s.
Proof. destruct s as [h w]. run; reflexivity. Qed.

Lemma close_returned_releases (s : handle * W) :
  result (close C s) = Returned tt ->
  filter is_release (trace (close C s)) = releases (fst s).
Proof.
  destruct s as [h w]. unfold releases. run; settle.
Qed.

Lemma close_raised_by_release (s : handle * W) (e : exn) :
  result (close C s) = Raised e ->
  thrown (trace (close C s)) = [e] /\ releases (fst s) <> [].
Proof.
  destruct s as [h w]. unfold releases. run; settle; split; auto;
    discriminate.
Qed.

Lemma close_returns (s : handle * W) :
  closes_never_raise C -> result (close C s) = Returned tt.
Proof.
  intros [Hk Hc]. destruct s as [h w]. run; try reflexivity;
    match goal with
    | E : cursor_close _ ?k ?w = (Raised _, _) |- _ =>
        specialize (Hk k w); rewrite E in Hk; discriminate Hk
    | E : connection_close _ ?c ?w = (Raised _, _) |- _ =>
        specialize (Hc c w); rewrite E in Hc; discriminate Hc
    end.
Qed.

End Closing.

(** C2 (amended): [close] skips a resource only when its field is [None].
    It leaves both fields as they are, so on a connected handle, closed
    before or not, a [close] that returns has called the cursor's [close]
    and then the session's.  It raises only what one of these two calls
    raises (a handle that stores nothing cannot make it raise); hence, with
    a collaborator whose [close] methods do not raise, [close] returns in
    every state, a second [close] in a row returns as well, and that second
    [close] releases the same objects once more. *)
Theorem close_skips_only_absent_resources
  {W} (C : Collab W) (s : handle * W) :
  fst (final (close C s)) = fst s /\
  (result (close C s) = Returned tt ->
     filter is_release (trace (close C s)) = releases (fst s)) /\
  (forall e, result (close C s) = Raised e ->
     thrown (trace (close C s)) = [e] /\ releases (fst s) <> []) /\
  (closes_never_raise C ->
     result (close C s) = Returned tt /\
     result (close C (final (close C s))) = Returned tt /\
     filter is_release (trace (close C (final (close C s))))
       = releases (fst s)).
Proof.
  split; [apply close_keeps_fields|].
  split; [apply close_returned_releases|].
  split; [intros e; apply close_raised_by_release|].
  intros Hc. split; [now apply close_returns|].
  split; [now apply close_returns|].
  rewrite close_returned_releases by now apply close_returns.
  now rewrite close_keeps_fields.
Qed.

Lemma example_session_closes_never_raise : closes_never_raise example_session.
Proof. split; intros; reflexivity. Qed.

Lemma close_skips_only_absent_resources_witness :
  closes_never_raise example_session /\
  result (close example_session
            (final (close example_session (connected_handle, tt))))
    = Returned tt /\
  filter is_release
    (trace (close example_session
              (final (close example_session (connected_handle, tt)))))
    = [EvCursorClose 8; EvConnClose 7].
Proof.
  split; [exact example_session_closes_never_raise|].
  apply (proj2 (proj2 (proj2 (proj2
           (close_skips_only_absent_resources example_session
              (connected_handle, tt))))
         example_session_closes_never_raise)).
Defined.

(** C3, counterexample: after a successful [connect] and [close] on the
    example session the handle still stores the session and the cursor. *)
Lemma open_then_close_keeps_fields :
  result (open_then_close example_session "adb-1.azuredatabricks.net"
            "/sql/1.0/warehouses/w1" "dapi-secret" tt) = Returned tt /\
  ~ holds_nothing
      (fst (final (open_then_close example_session "adb-1.azuredatabricks.net"
                     "/sql/1.0/warehouses/w1" "dapi-secret" tt))).
Proof.
  split; [reflexivity|]. intros [H _]. vm_compute in H. discriminate H.
Qed.

(** C3 (amended): whatever the connection parameters, when [connect]
    followed by [close] returns, [close] has called [close] on the cursor
    and then on the session that [connect] created, once each: the session
    is the object [sql.connect] returned, the cursor the object that
    session's [cursor()] returned, and both collaborator [close] calls
    returned.  The handle's two fields are not reset and still refer to
    these closed objects. *)
Theorem open_then_close_releases_both
  {W} (C : Collab W) (host path token : string) (w : W) :
  result (open_then_close C host path token w) = Returned tt ->
  exists c k w1 w2 w3 w4,
    sql_connect C host path "pat" token w = (Returned c, w1) /\
    connection_cursor C c w1 = (Returned k, w2) /\
    cursor_close C k w2 = (Returned tt, w3) /\
    connection_close C c w3 = (Returned tt, w4) /\
    snd (final (open_then_close C host path token w)) = w4 /\
    connection (fst (final (open_then_close C host path token w))) = Some c /\
    cursor (fst (final (open_then_close C host path token w))) = Some k /\
    trace (open_then_close C host path token w)
    = [ EvEnter MConnect; EvSqlConnect host path "pat" token; EvCursor c;
        EvPrint "✓ Connected to Databricks";
        EvEnter MClose; EvCursorClose k; EvConnClose c;
        EvPrint "✓ Connection closed" ].
Proof.
  unfold open_then_close. run; settle.
  do 6 eexists. repeat split; eassumption.
Qed.

Lemma open_then_close_releases_both_witness :
  exists c k w1 w2 w3 w4,
    sql_connect counting_session "h" "p" "pat" "t" 0 = (Returned c, w1) /\
    connection_cursor counting_session c w1 = (Returned k, w2) /\
    cursor_close counting_session k w2 = (Returned tt, w3) /\
    connection_close counting_session c w3 = (Returned tt, w4) /\
    snd (final (open_then_close counting_session "h" "p" "t" 0)) = w4 /\
    connection (fst (final (open_then_close counting_session "h" "p" "t" 0)))
      = Some c /\
    cursor (fst (final (open_then_close counting_session "h" "p" "t" 0)))
      = Some k /\
    trace (open_then_close counting_session "h" "p" "t" 0)
    = [ EvEnter MConnect; EvSqlConnect "h" "p" "pat" "t"; EvCursor c;
        EvPrint "✓ Connected to Databricks";
        EvEnter MClose; EvCursorClose k; EvConnClose c;
        EvPrint "✓ Connection closed" ].
Proof.
  apply (open_then_close_releases_both counting_session "h" "p" "t" 0).
  reflexivity.
Defined.

(** * The convenience entry point (C4, C7) *)

Section Finally.

Context {W A : Type}.
Variables (body : handle * W -> outcome A * (handle * W) * list event)
          (fin : handle * W -> outcome unit * (handle * W) * list event).

Lemma try_finally_trace (s : handle * W) :
  trace (try_finally body fin s)
  = trace (body s) ++ trace (fin (final (body s))).
Proof.
  unfold try_finally, trace, final.
  destruct (body s) as [[r s1] t1]; simpl.
  destruct (fin s1) as [[[u|e] s2] t2]; reflexivity.
Qed.

Lemma try_finally_returned (s : handle * W) :
  result (fin (final (body s))) = Returned tt ->
  result (try_finally body fin s) = result (body s).
Proof.
  unfold try_finally, result, final.
  destruct (body s) as [[r s1] t1]; simpl.
  destruct (fin s1) as [[[u|e] s2] t2]; simpl; intros H;
    [reflexivity | discriminate H].
Qed.

Lemma try_finally_raised (s : handle * W) (e : exn) :
  result (fin (final (body s))) = Raised e ->
  result (try_finally body fin s) = Raised e.
Proof.
  unfold try_finally, result, final.
  destruct (body s) as [[r s1] t1]; simpl.
  destruct (fin s1) as [[[u|e'] s2] t2]; simpl; intros H;
    [discriminate H | now inversion H].
Qed.

End Finally.

Lemma count_app (p : event -> bool) (t1 t2 : list event) :
  count p (t1 ++ t2) = count p t1 + count p t2.
Proof. unfold count. now rewrite filter_app, length_app. Qed.

Section Pull.

Context {W : Type}.
Variable C : Collab W.

Lemma close_enters_once (s : handle * W) :
  count (is_enter MClose) (trace (close C s)) = 1.
Proof. destruct s as [h w]. run; reflexivity. Qed.

Lemma pull_body_never_closes (q : string) (as_df : bool) (s : handle * W) :
  count (is_enter MClose) (trace (pull_body C q as_df s)) = 0.
Proof. destruct s as [h w]. destruct as_df; run; reflexivity. Qed.

Lemma pull_body_stops_at_failed_connect
  (q : string) (as_df : bool) (s : handle * W) :
  is_raised (result (connect C s)) = true ->
  trace (pull_body C q as_df s) = trace (connect C s) /\
  final (pull_body C q as_df s) = final (connect C s).
Proof.
  destruct s as [h w]. destruct as_df; run; settle.
Qed.

Lemma connect_never_executes (s : handle * W) :
  count (is_enter MExecuteQuery) (trace (connect C s)) = 0 /\
  count (is_enter MQueryToDataframe) (trace (connect C s)) = 0 /\
  count is_execute (trace (connect C s)) = 0.
Proof. destruct s as [h w]. run; auto. Qed.

Lemma close_never_executes (s : handle * W) :
  count (is_enter MExecuteQuery) (trace (close C s)) = 0 /\
  count (is_enter MQueryToDataframe) (trace (close C s)) = 0 /\
  count is_execute (trace (close C s)) = 0.
Proof. destruct s as [h w]. run; auto. Qed.

Lemma failed_sql_connect_leaves_nothing
  (host path token q : string) (as_df : bool) (w : W) (e : exn) :
  fst (sql_connect C host path "pat" token w) = Raised e ->
  result (pull_body C q as_df
            (DatabricksConnection host path token None None, w)) = Raised e /\
  result (close C (final (pull_body C q as_df
            (DatabricksConnection host path token None None, w))))
    = Returned tt.
Proof.
  destruct as_df; run; settle.
Qed.

End Pull.

(** C4, counterexample: the query raises [QueryFailure], then
    [cursor.close()] raises [CloseFailure] inside the [finally] clause: the
    caller receives [CloseFailure], not the original failure. *)
Lemma close_failure_masks_query_failure :
  ~ close_runs_once_and_never_masks failing_query_and_close_session
      "adb-1.azuredatabricks.net" "/sql/1.0/warehouses/w1" "dapi-secret"
      "SELECT 1" false tt.
Proof.
  intros [_ [_ H]]. specialize (H QueryFailure eq_refl).
  vm_compute in H. discriminate H.
Qed.

Example close_failure_is_what_the_caller_sees :
  result (pull_databricks_data failing_query_and_close_session
            "adb-1.azuredatabricks.net" "/sql/1.0/warehouses/w1"
            "dapi-secret" "SELECT 1" false tt)
  = Raised CloseFailure.
Proof. reflexivity. Qed.

(** C4 (amended): on every exit path [pull_databricks_data] runs [close]
    exactly once; when [connect] fails no query is executed; the caller
    sees the outcome of the body, so the original failure, whenever [close]
    returns, which it does when [sql.connect] itself failed (nothing is
    stored) and whenever the collaborator's [close] methods do not raise;
    when [close] raises, its exception is what the caller sees, in place of
    the original failure or of the result. *)
Theorem pull_closes_once_and_a_close_failure_wins
  {W} (C : Collab W) (host path token q : string) (as_df : bool) (w : W) :
  let s0 := (DatabricksConnection host path token None None, w) in
  let x := pull_databricks_data C host path token q as_df w in
  let b := pull_body C q as_df s0 in
  count (is_enter MClose) (trace x) = 1 /\
  (is_raised (result (connect C s0)) = true ->
     count (is_enter MExecuteQuery) (trace x) = 0 /\
     count (is_enter MQueryToDataframe) (trace x) = 0 /\
     count is_execute (trace x) = 0) /\
  (result (close C (final b)) = Returned tt -> result x = result b) /\
  (forall e, result (close C (final b)) = Raised e -> result x = Raised e) /\
  (forall e, fst (sql_connect C host path "pat" token w) = Raised e ->
     result x = Raised e) /\
  (closes_never_raise C -> result x = result b).
Proof.
  intros s0 x b. subst x b. unfold pull_databricks_data. fold s0.
  repeat split.
  - rewrite try_finally_trace, count_app, pull_body_never_closes,
      close_enters_once. reflexivity.
  - rewrite try_finally_trace, count_app.
    destruct (pull_body_stops_at_failed_connect C q as_df s0 H) as [Ht Hf].
    rewrite Ht, (proj1 (connect_never_executes C s0)).
    now rewrite (proj1 (close_never_executes C _)).
  - rewrite try_finally_trace, count_app.
    destruct (pull_body_stops_at_failed_connect C q as_df s0 H) as [Ht Hf].
    rewrite Ht, (proj1 (proj2 (connect_never_executes C s0))).
    now rewrite (proj1 (proj2 (close_never_executes C _))).
  - rewrite try_finally_trace, count_app.
    destruct (pull_body_stops_at_failed_connect C q as_df s0 H) as [Ht Hf].
    rewrite Ht, (proj2 (proj2 (connect_never_executes C s0))).
    now rewrite (proj2 (proj2 (close_never_executes C _))).
  - apply try_finally_returned.
  - intros e. apply try_finally_raised.
  - intros e He.
    destruct (failed_sql_connect_leaves_nothing C host path token q as_df w e He)
      as [Hb Hc].
    fold s0 in Hb, Hc. rewrite (try_finally_returned _ _ _ Hc). exact Hb.
  - intros Hc. apply try_finally_returned. now apply close_returns.
Qed.

Lemma pull_closes_once_and_a_close_failure_wins_witness :
  count (is_enter MClose)
    (trace (pull_databricks_data unreachable_session "h" "p" "t" "SELECT 1"
              true tt)) = 1 /\
  count is_execute
    (trace (pull_databricks_data unreachable_session "h" "p" "t" "SELECT 1"
              true tt)) = 0 /\
  result (pull_databricks_data unreachable_session "h" "p" "t" "SELECT 1"
            true tt) = Raised ConnectionFailure.
Proof.
  pose proof (pull_closes_once_and_a_close_failure_wins unreachable_session
                "h" "p" "t" "SELECT 1" true tt) as H.
  cbv zeta in H. destruct H as [H1 [H2 [_ [_ [H5 _]]]]].
  split; [exact H1|]. split.
  - apply H2. reflexivity.
  - apply H5. reflexivity.
Defined.

(** * Execute-to-table (C5, C6) *)

Lemma forallb_width_ok (n : nat) (rows : list row) :
  forallb (width_ok n) rows = true <-> rows_fit n rows.
Proof.
  unfold rows_fit, width_ok. rewrite forallb_forall, Forall_forall.
  split; intros H r Hr; specialize (H r Hr); now apply Nat.eqb_eq.
Qed.

Lemma pd_DataFrame_returned (rows : list row) (cols : list string)
  (df : DataFrame) :
  pd_DataFrame rows cols = Returned df ->
  columns df = cols /\ data df = rows /\ rows_fit (length cols) rows.
Proof.
  unfold pd_DataFrame.
  destruct (forallb (width_ok (length cols)) rows) eqn:E; intros H;
    inversion H; subst; simpl.
  repeat split. now apply forallb_width_ok.
Qed.

Lemma pd_DataFrame_fits (rows : list row) (cols : list string) :
  rows_fit (length cols) rows ->
  pd_DataFrame rows cols = Returned {| columns := cols; data := rows |}.
Proof.
  intros H. apply forallb_width_ok in H. unfold pd_DataFrame.
  now rewrite H.
Qed.

Section Table.

Context {W : Type}.
Variable C : Collab W.
Variables (q : string) (h : handle) (k : cursor_id) (w w1 w2 w3 : W)
          (rows : list row) (ds : list desc).

(** The query executes: the handle has a cursor, [execute] and [fetchall]
    return, and the cursor then has a description. *)
Hypothesis Hcursor : cursor h = Some k.
Hypothesis Hexecute : cursor_execute C k q w = (Returned tt, w1).
Hypothesis Hfetchall : cursor_fetchall C k w1 = (Returned rows, w2).
Hypothesis Hdescription :
  cursor_description C k w2 = (Returned (Some ds), w3).

Lemma query_to_dataframe_is_pd_DataFrame :
  result (query_to_dataframe C q (h, w))
  = pd_DataFrame rows (map d_name ds) /\
  stdout (trace (query_to_dataframe C q (h, w)))
  = match pd_DataFrame rows (map d_name ds) with
    | Returned df =>
        [ ("✓ Retrieved " ++ str_nat (len df) ++ " rows")%string ]
    | Raised e => diagnostics e [convert_failed]
    end.
Proof.
  unfold_py. rewrite Hcursor; simpl. rewrite Hexecute; simpl.
  rewrite Hfetchall; simpl. rewrite Hcursor; simpl.
  rewrite Hdescription; simpl.
  unfold diagnostics.
  destruct (pd_DataFrame rows (map d_name ds)) as [df|e]; simpl; auto.
  destruct (exn_is_Exception e); simpl; auto.
Qed.

End Table.

(** C5: when the query executes and the cursor has a description,
    [query_to_dataframe] produces a table exactly when the fetched rows fit
    the description (otherwise the construction fails), and a table it
    produces has the names of the description as its columns, as many
    values in every row as it has column names, and as many rows as
    [fetchall] returned. *)
Theorem query_to_dataframe_shape
  {W} (C : Collab W) (q : string) (h : handle) (k : cursor_id)
  (w w1 w2 w3 : W) (rows : list row) (ds : list desc) :
  cursor h = Some k ->
  cursor_execute C k q w = (Returned tt, w1) ->
  cursor_fetchall C k w1 = (Returned rows, w2) ->
  cursor_description C k w2 = (Returned (Some ds), w3) ->
  (rows_fit (length ds) rows <->
   exists df, result (query_to_dataframe C q (h, w)) = Returned df) /\
  (forall df, result (query_to_dataframe C q (h, w)) = Returned df ->
     columns df = map d_name ds /\
     Forall (fun r => length r = length (columns df)) (data df) /\
     len df = length rows).
Proof.
  intros Hc He Hf Hd.
  destruct (query_to_dataframe_is_pd_DataFrame C q h k w w1 w2 w3 rows ds
              Hc He Hf Hd) as [Hr _].
  rewrite Hr. split; [split|].
  - intros Hfit. eexists. apply pd_DataFrame_fits.
    now rewrite length_map.
  - intros [df Hdf]. apply pd_DataFrame_returned in Hdf.
    destruct Hdf as [_ [_ Hfit]]. now rewrite length_map in Hfit.
  - intros df Hdf. apply pd_DataFrame_returned in Hdf.
    destruct Hdf as [Hcols [Hdata Hfit]]. unfold len.
    rewrite Hcols, Hdata. now repeat split.
Qed.

Lemma query_to_dataframe_shape_witness :
  exists df,
    result (query_to_dataframe example_session "SELECT id, name FROM t"
              (connected_handle, tt)) = Returned df /\
    columns df = ["id"; "name"] /\
    Forall (fun r => length r = length (columns df)) (data df) /\
    len df = 2.
Proof.
  destruct (query_to_dataframe_shape example_session "SELECT id, name FROM t"
              connected_handle 8 tt tt tt tt example_rows example_description
              eq_refl eq_refl eq_refl eq_refl) as [Hiff Hshape].
  destruct (proj1 Hiff) as [df Hdf].
  - repeat constructor.
  - exists df. split; [exact Hdf|]. exact (Hshape df Hdf).
Defined.

(** C6: on a handle whose cursor executes the query, fetches the rows
    [(1, "a"), (2, "b")] and describes the columns id and name,
    [query_to_dataframe] returns the table
    [{"id": [1, 2], "name": ["a", "b"]}], of 2 rows, and prints that it
    retrieved 2 rows. *)
Theorem query_to_dataframe_example
  {W} (C : Collab W) (q : string) (h : handle) (k : cursor_id)
  (w w1 w2 w3 : W) (ds : list desc) :
  cursor h = Some k ->
  cursor_execute C k q w = (Returned tt, w1) ->
  cursor_fetchall C k w1 = (Returned example_rows, w2) ->
  cursor_description C k w2 = (Returned (Some ds), w3) ->
  map d_name ds = ["id"; "name"] ->
  exists df,
    result (query_to_dataframe C q (h, w)) = Returned df /\
    to_dict df = [ ("id", [VInt 1; VInt 2]); ("name", [VStr "a"; VStr "b"]) ] /\
    len df = 2 /\
    stdout (trace (query_to_dataframe C q (h, w))) = ["✓ Retrieved 2 rows"].
Proof.
  intros Hc He Hf Hd Hn.
  destruct (query_to_dataframe_is_pd_DataFrame C q h k w w1 w2 w3
              example_rows ds Hc He Hf Hd) as [Hr Hs].
  rewrite Hn in Hr, Hs.
  exists {| columns := ["id"; "name"]; data := example_rows |}.
  rewrite Hr, Hs. repeat split.
Qed.

Lemma query_to_dataframe_example_witness :
  exists df,
    result (query_to_dataframe example_session "SELECT id, name FROM t"
              (connected_handle, tt)) = Returned df /\
    to_dict df = [ ("id", [VInt 1; VInt 2]); ("name", [VStr "a"; VStr "b"]) ] /\
    len df = 2 /\
    stdout (trace (query_to_dataframe example_session "SELECT id, name FROM t"
                     (connected_handle, tt))) = ["✓ Retrieved 2 rows"].
Proof.
  apply (query_to_dataframe_example example_session "SELECT id, name FROM t"
           connected_handle 8 tt tt tt tt example_description);
    reflexivity.
Defined.

(** * Raw rows (C7) *)

Lemma pull_rows_builds_no_table
  {W} (C : Collab W) (host path token q : string) (w : W) :
  count is_dataframe
    (trace (pull_databricks_data C host path token q false w)) = 0 /\
  count (is_enter MQueryToDataframe)
    (trace (pull_databricks_data C host path token q false w)) = 0.
Proof. run; auto. Qed.

(** C7: with [as_dataframe=False], when the session connects, executes the
    query and closes, [pull_databricks_data] returns exactly the rows that
    [fetchall] returned, and neither [query_to_dataframe] nor the table
    constructor is called on the way. *)
Theorem pull_rows_returns_what_fetchall_returned
  {W} (C : Collab W) (host path token q : string)
  (w w1 w2 w3 w4 w5 w6 : W) (c : conn) (k : cursor_id) (rows : list row) :
  sql_connect C host path "pat" token w = (Returned c, w1) ->
  connection_cursor C c w1 = (Returned k, w2) ->
  cursor_execute C k q w2 = (Returned tt, w3) ->
  cursor_fetchall C k w3 = (Returned rows, w4) ->
  cursor_close C k w4 = (Returned tt, w5) ->
  connection_close C c w5 = (Returned tt, w6) ->
  result (pull_databricks_data C host path token q false w)
    = Returned (AsRows rows) /\
  count is_dataframe
    (trace (pull_databricks_data C host path token q false w)) = 0 /\
  count (is_enter MQueryToDataframe)
    (trace (pull_databricks_data C host path token q false w)) = 0.
Proof.
  intros H1 H2 H3 H4 H5 H6.
  split; [|apply pull_rows_builds_no_table].
  unfold_py. rewrite H1; simpl. rewrite H2; simpl. rewrite H3; simpl.
  rewrite H4; simpl. rewrite H5; simpl. rewrite H6; simpl. reflexivity.
Qed.

Lemma pull_rows_returns_what_fetchall_returned_witness :
  result (pull_databricks_data example_session "adb-1.azuredatabricks.net"
            "/sql/1.0/warehouses/w1" "dapi-secret" "SELECT id, name FROM t"
            false tt)
    = Returned (AsRows [ [VInt 1; VStr "a"]; [VInt 2; VStr "b"] ]) /\
  count is_dataframe
    (trace (pull_databricks_data example_session "adb-1.azuredatabricks.net"
              "/sql/1.0/warehouses/w1" "dapi-secret" "SELECT id, name FROM t"
              false tt)) = 0 /\
  count (is_enter MQueryToDataframe)
    (trace (pull_databricks_data example_session "adb-1.azuredatabricks.net"
              "/sql/1.0/warehouses/w1" "dapi-secret" "SELECT id, name FROM t"
              false tt)) = 0.
Proof.
  apply (pull_rows_returns_what_fetchall_returned example_session
           "adb-1.azuredatabricks.net" "/sql/1.0/warehouses/w1" "dapi-secret"
           "SELECT id, name FROM t" tt tt tt tt tt tt tt 7 8 example_rows);
    reflexivity.
Defined.

(** * Connection parameters (C8) *)

(** C8, counterexample: called with three empty strings, the entry point
    passes them to [sql.connect]. *)
Lemma empty_parameters_reach_sql_connect :
  ~ attempts_have_required_fields
      (trace (pull_databricks_data example_session "" "" "" "SELECT 1"
                true tt)).
Proof.
  intros H. destruct (H "" "" "pat" "") as [Hhost _].
  - simpl. auto.
  - now apply Hhost.
Qed.

Lemma connect_attempts_once {W} (C : Collab W) (h : handle) (w : W) :
  filter is_sql_connect (trace (connect C (h, w)))
  = [ EvSqlConnect (hostname h) (http_path h) "pat"
        (personal_access_token h) ].
Proof. run; reflexivity. Qed.

Lemma pull_attempts_once
  {W} (C : Collab W) (host path token q : string) (as_df : bool) (w : W) :
  filter is_sql_connect
    (trace (pull_databricks_data C host path token q as_df w))
  = [ EvSqlConnect host path "pat" token ].
Proof. destruct as_df; run; reflexivity. Qed.

(** C8 (amended): neither the constructor nor [connect] checks the
    parameters.  [connect] makes one connection attempt, with the hostname,
    path and token exactly as they were given, so the attempt has non-empty
    required fields if and only if the caller supplied non-empty ones; the
    same holds for [pull_databricks_data]. *)
Theorem connection_attempt_uses_fields_unchecked
  {W} (C : Collab W) (host path token q : string) (cat sch : option string)
  (as_df : bool) (w : W) :
  let h := DatabricksConnection host path token cat sch in
  filter is_sql_connect (trace (connect C (h, w)))
    = [ EvSqlConnect host path "pat" token ] /\
  filter is_sql_connect
    (trace (pull_databricks_data C host path token q as_df w))
    = [ EvSqlConnect host path "pat" token ] /\
  (attempts_have_required_fields (trace (connect C (h, w))) <->
   host <> "" /\ path <> "" /\ token <> "").
Proof.
  intros h. split; [apply (connect_attempts_once C h w)|].
  split; [apply pull_attempts_once|].
  pose proof (connect_attempts_once C h w) as Hf. simpl in Hf.
  split.
  - intros H. apply (H host path "pat" token).
    apply (filter_In is_sql_connect). rewrite Hf. now left.
  - intros Hne host' path' auth' token' Hin.
    assert (Hin' : In (EvSqlConnect host' path' auth' token')
                      (filter is_sql_connect (trace (connect C (h, w)))))
      by (apply filter_In; split; [exact Hin | reflexivity]).
    rewrite Hf in Hin'. destruct Hin' as [Heq|[]].
    inversion Heq; subst. exact Hne.
Qed.

(** * The access token and the output (C9) *)

Lemma stdout_app (t1 t2 : list event) :
  stdout (t1 ++ t2) = stdout t1 ++ stdout t2.
Proof.
  induction t1 as [|ev t1 IH]; simpl; [reflexivity|].
  destruct ev; simpl; now rewrite IH.
Qed.

Section Token.

Context {W : Type}.
Variable C : Collab W.
Variables t1 t2 : string.
Hypothesis Hblind : token_blind C t1 t2.

(** One operation, run with either token in the handle: same outcome, same
    output, same world, and handles that still differ in the token only. *)
Lemma perform_token_independent
  (o : operation) (hn hp : string) (cat sch : option string)
  (con : option conn) (cur : option cursor_id) (w : W) :
  exists r con' cur' w' tr1 tr2,
    perform C o (mkHandle hn hp t1 cat sch con cur, w)
      = (r, (mkHandle hn hp t1 cat sch con' cur', w'), tr1) /\
    perform C o (mkHandle hn hp t2 cat sch con cur, w)
      = (r, (mkHandle hn hp t2 cat sch con' cur', w'), tr2) /\
    stdout tr1 = stdout tr2.
Proof.
  destruct o as [|q|q|]; unfold perform, observe.
  - unfold_py. rewrite (Hblind hn hp "pat" w).
    repeat next_case; repeat eexists.
  - destruct cur as [k|]; run; repeat eexists.
  - destruct cur as [k|]; run; repeat eexists.
  - destruct cur as [k|], con as [c|]; run; repeat eexists.
Qed.

Lemma perform_all_token_independent (ops : list operation) :
  forall (hn hp : string) (cat sch : option string)
         (con : option conn) (cur : option cursor_id) (w : W),
    fst (fst (perform_all C ops (mkHandle hn hp t1 cat sch con cur, w)))
    = fst (fst (perform_all C ops (mkHandle hn hp t2 cat sch con cur, w))) /\
    stdout (snd (perform_all C ops (mkHandle hn hp t1 cat sch con cur, w)))
    = stdout (snd (perform_all C ops (mkHandle hn hp t2 cat sch con cur, w))).
Proof.
  induction ops as [|o ops IH]; intros; simpl; [auto|].
  destruct (perform_token_independent o hn hp cat sch con cur w)
    as (r & con' & cur' & w' & tr1 & tr2 & E1 & E2 & Eout).
  rewrite E1, E2.
  specialize (IH hn hp cat sch con' cur' w').
  destruct (perform_all C ops (mkHandle hn hp t1 cat sch con' cur', w'))
    as [[rs1 s1] u1].
  destruct (perform_all C ops (mkHandle hn hp t2 cat sch con' cur', w'))
    as [[rs2 s2] u2].
  simpl in *. destruct IH as [IHr IHo].
  rewrite !stdout_app. now rewrite IHr, IHo, Eout.
Qed.

Lemma pull_token_independent (host path q : string) (as_df : bool) (w : W) :
  result (pull_databricks_data C host path t1 q as_df w)
  = result (pull_databricks_data C host path t2 q as_df w) /\
  stdout (trace (pull_databricks_data C host path t1 q as_df w))
  = stdout (trace (pull_databricks_data C host path t2 q as_df w)).
Proof.
  destruct as_df; unfold_py; rewrite (Hblind host path "pat" w);
    repeat next_case; auto.
Qed.

End Token.

(** C9: the module's output does not depend on the access token.  With a
    collaborator that behaves identically for two tokens, any sequence of
    [connect], [execute_query], [query_to_dataframe] and [close] calls run
    on two handles that differ in the token only prints the same lines and
    has the same outcomes; so does [pull_databricks_data] called with either
    token. *)
Theorem output_independent_of_token
  {W} (C : Collab W) (t1 t2 : string) :
  token_blind C t1 t2 ->
  (forall (ops : list operation) (h : handle) (w : W),
     stdout (snd (perform_all C ops (with_token t1 h, w)))
     = stdout (snd (perform_all C ops (with_token t2 h, w))) /\
     fst (fst (perform_all C ops (with_token t1 h, w)))
     = fst (fst (perform_all C ops (with_token t2 h, w)))) /\
  (forall (host path q : string) (as_df : bool) (w : W),
     stdout (trace (pull_databricks_data C host path t1 q as_df w))
     = stdout (trace (pull_databricks_data C host path t2 q as_df w)) /\
     result (pull_databricks_data C host path t1 q as_df w)
     = result (pull_databricks_data C host path t2 q as_df w)).
Proof.
  intros Hblind. split.
  - intros ops [hn hp tk cat sch con cur] w. unfold with_token; simpl.
    destruct (perform_all_token_independent C t1 t2 Hblind ops
                hn hp cat sch con cur w) as [Hr Ho].
    now split.
  - intros host path q as_df w.
    destruct (pull_token_independent C t1 t2 Hblind host path q as_df w)
      as [Hr Ho].
    now split.
Qed.

Lemma scripted_token_blind (p : script) (t1 t2 : string) :
  token_blind (scripted p) t1 t2.
Proof. intros host path auth w. reflexivity. Qed.

Lemma output_independent_of_token_witness :
  token_blind unauthorized_session "dapi-secret-1" "dapi-secret-2" /\
  stdout (snd (perform_all unauthorized_session
                 [Connect; QueryToDataframe "SELECT 1"; Close]
                 (with_token "dapi-secret-1" connected_handle, tt)))
  = stdout (snd (perform_all unauthorized_session
                   [Connect; QueryToDataframe "SELECT 1"; Close]
                   (with_token "dapi-secret-2" connected_handle, tt))).
Proof.
  split; [apply scripted_token_blind|].
  apply (proj1 (output_independent_of_token unauthorized_session
                  "dapi-secret-1" "dapi-secret-2"
                  (scripted_token_blind _ _ _))).
Defined.

(** * A partly opened handle (C10) *)

(** C10, counterexample: [connection.cursor()] fails, and the [close] that
    follows calls [connection.close()], which raises: [close] raises. *)
Lemma close_after_partial_open_can_raise :
  ~ cleanup_after_partial_open half_open_session
      (DatabricksConnection "adb-1.azuredatabricks.net"
         "/sql/1.0/warehouses/w1" "dapi-secret" None None) tt.
Proof.
  intros H.
  destruct (H 7 tt ConnectionFailure tt eq_refl eq_refl) as [_ [_ [_ Hr]]].
  vm_compute in Hr. discriminate Hr.
Qed.

(** C10 (amended): when [connect], on a handle without cursor, fails
    between the creation of the session and that of the cursor, it raises
    that failure and leaves the session stored and the cursor absent; the
    following [close] skips the cursor, calls [close] on the session and on
    nothing else, and its outcome is the outcome of that one call: it raises
    exactly when the session's [close] raises. *)
Theorem partial_open_then_close
  {W} (C : Collab W) (h : handle) (w w1 w2 : W) (c : conn) (e : exn) :
  cursor h = None ->
  sql_connect C (hostname h) (http_path h) "pat" (personal_access_token h) w
    = (Returned c, w1) ->
  connection_cursor C c w1 = (Raised e, w2) ->
  result (connect C (h, w)) = Raised e /\
  connection (fst (final (connect C (h, w)))) = Some c /\
  cursor (fst (final (connect C (h, w)))) = None /\
  filter is_release (trace (close C (final (connect C (h, w)))))
    = [EvConnClose c] /\
  result (close C (final (connect C (h, w)))) = fst (connection_close C c w2).
Proof.
  intros Hcur Hconnect Hcursor.
  unfold_py. rewrite Hconnect; simpl. rewrite Hcursor; simpl.
  destruct (exn_is_Exception e); simpl; rewrite Hcur; simpl;
    destruct (connection_close C c w2) as [[[]|e'] w3]; simpl;
    repeat split.
Qed.

Lemma partial_open_then_close_witness :
  result (connect half_open_session
            (DatabricksConnection "h" "p" "t" None None, tt))
    = Raised ConnectionFailure /\
  connection (fst (final (connect half_open_session
            (DatabricksConnection "h" "p" "t" None None, tt)))) = Some 7 /\
  cursor (fst (final (connect half_open_session
            (DatabricksConnection "h" "p" "t" None None, tt)))) = None /\
  filter is_release
    (trace (close half_open_session (final (connect half_open_session
              (DatabricksConnection "h" "p" "t" None None, tt)))))
    = [EvConnClose 7] /\
  result (close half_open_session (final (connect half_open_session
            (DatabricksConnection "h" "p" "t" None None, tt))))
    = fst (connection_close half_open_session 7 tt).
Proof.
  apply (partial_open_then_close half_open_session
           (DatabricksConnection "h" "p" "t" None None) tt tt tt 7
           ConnectionFailure); reflexivity.
Defined.

(** * Further properties of the handle *)

Section Ignored.

Context {W : Type}.
Variable C : Collab W.

Lemma perform_ignores_catalog_schema
  (o : operation) (hn hp tk : string) (cat sch cat' sch' : option string)
  (con : option conn) (cur : option cursor_id) (w : W) :
  exists r con' cur' w' tr,
    perform C o (mkHandle hn hp tk cat sch con cur, w)
      = (r, (mkHandle hn hp tk cat sch con' cur', w'), tr) /\
    perform C o (mkHandle hn hp tk cat' sch' con cur, w)
      = (r, (mkHandle hn hp tk cat' sch' con' cur', w'), tr).
Proof.
  destruct o as [|q|q|]; unfold perform, observe.
  - run; repeat eexists.
  - destruct cur as [k|]; run; repeat eexists.
  - destruct cur as [k|]; run; repeat eexists.
  - destruct cur as [k|], con as [c|]; run; repeat eexists.
Qed.

Lemma perform_all_ignores_catalog_schema (ops : list operation) :
  forall (hn hp tk : string) (cat sch cat' sch' : option string)
         (con : option conn) (cur : option cursor_id) (w : W),
    fst (fst (perform_all C ops (mkHandle hn hp tk cat sch con cur, w)))
    = fst (fst (perform_all C ops (mkHandle hn hp tk cat' sch' con cur, w))) /\
    snd (perform_all C ops (mkHandle hn hp tk cat sch con cur, w))
    = snd (perform_all C ops (mkHandle hn hp tk cat' sch' con cur, w)).
Proof.
  induction ops as [|o ops IH]; intros; simpl; [auto|].
  destruct (perform_ignores_catalog_schema o hn hp tk cat sch cat' sch'
              con cur w) as (r & con' & cur' & w' & tr & E1 & E2).
  rewrite E1, E2.
  specialize (IH hn hp tk cat sch cat' sch' con' cur' w').
  destruct (perform_all C ops (mkHandle hn hp tk cat sch con' cur', w'))
    as [[rs1 s1] u1].
  destruct (perform_all C ops (mkHandle hn hp tk cat' sch' con' cur', w'))
    as [[rs2 s2] u2].
  simpl in *. destruct IH as [IHr IHt]. now rewrite IHr, IHt.
Qed.

End Ignored.

(** X1: the catalog and the schema given to the constructor are stored and
    never read: whatever sequence of operations is run, a handle with any
    catalog and schema has the same outcomes, makes the same collaborator
    calls with the same arguments and prints the same lines as the handle
    with other ones (or none). *)
Theorem catalog_and_schema_are_ignored
  {W} (C : Collab W) (ops : list operation) (h : handle) (w : W)
  (cat sch cat' sch' : option string) :
  fst (fst (perform_all C ops (with_catalog_schema cat sch h, w)))
  = fst (fst (perform_all C ops (with_catalog_schema cat' sch' h, w))) /\
  snd (perform_all C ops (with_catalog_schema cat sch h, w))
  = snd (perform_all C ops (with_catalog_schema cat' sch' h, w)).
Proof.
  destruct h as [hn hp tk cat0 sch0 con cur]. unfold with_catalog_schema.
  simpl. apply perform_all_ignores_catalog_schema.
Qed.

Lemma observe_final_state {W A} (f : A -> observed)
  (x : outcome A * (handle * W) * list event) :
  final (observe f x) = final x.
Proof. destruct x as [[[a|e'] s] t]; reflexivity. Qed.

Section Invariant.

Context {W : Type}.
Variable C : Collab W.

Lemma perform_keeps_invariant (o : operation) (h : handle) (w : W) :
  same_parameters h (fst (final (perform C o (h, w)))) /\
  (cursor_has_session h ->
   cursor_has_session (fst (final (perform C o (h, w))))).
Proof.
  unfold same_parameters, cursor_has_session.
  destruct o as [|q|q|]; simpl; rewrite observe_final_state;
    run; repeat split; auto; intros; try discriminate;
    solve [ congruence
          | match goal with
            | H : _ <> None -> _ |- _ =>
                first [ apply H; congruence | exfalso; apply H; congruence ]
            end ].
Qed.

Lemma perform_all_keeps_invariant (ops : list operation) :
  forall (h : handle) (w : W),
    same_parameters h (handle_after (perform_all C ops (h, w))) /\
    (cursor_has_session h ->
     cursor_has_session (handle_after (perform_all C ops (h, w)))).
Proof.
  induction ops as [|o ops IH]; intros h w; simpl.
  - unfold same_parameters, handle_after; simpl. repeat split; auto.
  - destruct (perform_keeps_invariant o h w) as [Hp Hc].
    destruct (perform C o (h, w)) as [[r [h1 w1]] t1]; simpl in *.
    destruct (IH h1 w1) as [Hp' Hc'].
    destruct (perform_all C ops (h1, w1)) as [[rs [h2 w2]] t2].
    unfold handle_after, final in *; simpl in *.
    split; [|auto].
    unfold same_parameters in *.
    destruct Hp as (A1 & A2 & A3 & A4 & A5).
    destruct Hp' as (B1 & B2 & B3 & B4 & B5).
    repeat split; congruence.
Qed.

End Invariant.

(** X2: whatever operations are run on a handle, in whatever order and
    with whatever outcomes, its hostname, path, token, catalog and schema
    stay those given to the constructor, and it never stores a cursor
    without storing a session. *)
Theorem handle_invariant
  {W} (C : Collab W) (ops : list operation)
  (host path token : string) (cat sch : option string) (w : W) :
  let h := handle_after
             (perform_all C ops
                (DatabricksConnection host path token cat sch, w)) in
  hostname h = host /\ http_path h = path /\
  personal_access_token h = token /\ catalog h = cat /\ schema h = sch /\
  cursor_has_session h.
Proof.
  intros h.
  destruct (perform_all_keeps_invariant C ops
              (DatabricksConnection host path token cat sch) w)
    as [(A1 & A2 & A3 & A4 & A5) Hc].
  fold h in A1, A2, A3, A4, A5, Hc.
  repeat split; auto.
  apply Hc. intros H. now contradict H.
Qed.

(** X3: only a [connect] whose [sql.connect] returns changes the handle:
    [execute_query], [query_to_dataframe] and [close] leave every field as
    it is, whatever their outcome, and so does a [connect] whose
    [sql.connect] raises (a handle connected before stays connected to the
    old session). *)
Theorem only_connect_changes_the_handle
  {W} (C : Collab W) (q : string) (h : handle) (w : W) :
  fst (final (execute_query C q (h, w))) = h /\
  fst (final (query_to_dataframe C q (h, w))) = h /\
  fst (final (close C (h, w))) = h /\
  (is_raised (fst (sql_connect C (hostname h) (http_path h) "pat"
                     (personal_access_token h) w)) = true ->
   fst (final (connect C (h, w))) = h).
Proof.
  repeat split.
  - run; reflexivity.
  - run; reflexivity.
  - run; reflexivity.
  - run; intros H; first [reflexivity | discriminate H].
Qed.

Lemma only_connect_changes_the_handle_witness :
  fst (final (connect unreachable_session (connected_handle, tt)))
  = connected_handle.
Proof.
  apply (proj2 (proj2 (proj2
           (only_connect_changes_the_handle unreachable_session "SELECT 1"
              connected_handle tt)))).
  reflexivity.
Defined.

(** X4: [connect] never closes anything.  When it is called twice and both
    calls return, the handle stores the second session and cursor, and a
    [close] that follows calls [close] on these two only: the first session
    and cursor are left open and are no longer reachable from the handle. *)
Theorem reconnect_abandons_the_first_session
  {W} (C : Collab W) (h : handle) (w w1 w2 w3 w4 : W)
  (c1 c2 : conn) (k1 k2 : cursor_id) :
  sql_connect C (hostname h) (http_path h) "pat" (personal_access_token h) w
    = (Returned c1, w1) ->
  connection_cursor C c1 w1 = (Returned k1, w2) ->
  sql_connect C (hostname h) (http_path h) "pat" (personal_access_token h) w2
    = (Returned c2, w3) ->
  connection_cursor C c2 w3 = (Returned k2, w4) ->
  result (connect_twice C (h, w)) = Returned tt /\
  filter is_release (trace (connect_twice C (h, w))) = [] /\
  connection (fst (final (connect_twice C (h, w)))) = Some c2 /\
  cursor (fst (final (connect_twice C (h, w)))) = Some k2 /\
  forall ev,
    In ev (filter is_release
             (trace (close C (final (connect_twice C (h, w)))))) ->
    ev = EvCursorClose k2 \/ ev = EvConnClose c2.
Proof.
  intros H1 H2 H3 H4. unfold connect_twice.
  unfold_py. rewrite H1; simpl. rewrite H2; simpl. rewrite H3; simpl.
  rewrite H4; simpl. repeat split.
  repeat next_case; simpl; intuition.
Qed.

Lemma reconnect_abandons_the_first_session_witness :
  connection (fst (final (connect_twice counting_session
                (DatabricksConnection "h" "p" "t" None None, 0)))) = Some 2 /\
  cursor (fst (final (connect_twice counting_session
                (DatabricksConnection "h" "p" "t" None None, 0)))) = Some 3 /\
  filter is_release
    (trace (close counting_session
              (final (connect_twice counting_session
                        (DatabricksConnection "h" "p" "t" None None, 0)))))
  = [EvCursorClose 3; EvConnClose 2].
Proof.
  destruct (reconnect_abandons_the_first_session counting_session
              (DatabricksConnection "h" "p" "t" None None) 0 1 2 3 4
              0 2 1 3 eq_refl eq_refl eq_refl eq_refl)
    as (_ & _ & Hc & Hk & _).
  split; [exact Hc|]. split; [exact Hk|]. reflexivity.
Defined.

(** X5: when [connect] is called on a handle that already stores a cursor
    and fails between the creation of the new session and that of its
    cursor, the handle is left with the new session and the cursor of the
    old one; [execute_query] then runs the query on that old cursor. *)
Theorem failed_reconnect_keeps_the_old_cursor
  {W} (C : Collab W) (h : handle) (w w1 w2 : W)
  (k0 : cursor_id) (c : conn) (e : exn) (q : string) :
  cursor h = Some k0 ->
  sql_connect C (hostname h) (http_path h) "pat" (personal_access_token h) w
    = (Returned c, w1) ->
  connection_cursor C c w1 = (Raised e, w2) ->
  result (connect C (h, w)) = Raised e /\
  connection (fst (final (connect C (h, w)))) = Some c /\
  cursor (fst (final (connect C (h, w)))) = Some k0 /\
  In (EvExecute k0 q)
     (trace (execute_query C q (final (connect C (h, w))))).
Proof.
  intros Hk Hc Hcur. unfold_py. rewrite Hc; simpl. rewrite Hcur; simpl.
  destruct (exn_is_Exception e); simpl; rewrite Hk; simpl;
    repeat split; repeat next_case; simpl; auto.
Qed.

Lemma failed_reconnect_keeps_the_old_cursor_witness :
  connection (fst (final (connect half_open_session (connected_handle, tt))))
    = Some 7 /\
  cursor (fst (final (connect half_open_session (connected_handle, tt))))
    = Some 8 /\
  In (EvExecute 8 "SELECT 1")
     (trace (execute_query half_open_session "SELECT 1"
               (final (connect half_open_session (connected_handle, tt))))).
Proof.
  destruct (failed_reconnect_keeps_the_old_cursor half_open_session
              connected_handle tt tt tt 8 7 ConnectionFailure "SELECT 1"
              eq_refl eq_refl eq_refl) as (_ & Hc & Hk & Hin).
  repeat split; assumption.
Defined.

(** X6: a query on a handle that has no cursor (never connected) fails
    without any call of the collaborator: [execute_query] raises the
    [AttributeError] of the access to [None] and prints one diagnostic for
    it, [query_to_dataframe] raises the same exception and prints two; the
    handle and the world are unchanged. *)
Theorem query_without_connection
  {W} (C : Collab W) (q : string) (h : handle) (w : W) :
  cursor h = None ->
  let e := AttributeError_None "execute" in
  result (execute_query C q (h, w)) = Raised e /\
  final (execute_query C q (h, w)) = (h, w) /\
  filter is_call (trace (execute_query C q (h, w))) = [] /\
  stdout (trace (execute_query C q (h, w)))
    = [ (query_failed ++ exn_str e)%string ] /\
  result (query_to_dataframe C q (h, w)) = Raised e /\
  final (query_to_dataframe C q (h, w)) = (h, w) /\
  filter is_call (trace (query_to_dataframe C q (h, w))) = [] /\
  stdout (trace (query_to_dataframe C q (h, w)))
    = [ (query_failed ++ exn_str e)%string;
        (convert_failed ++ exn_str e)%string ].
Proof.
  intros Hcur e. subst e. unfold_py. rewrite Hcur; simpl.
  repeat split.
Qed.

Lemma query_without_connection_witness :
  result (execute_query example_session "SELECT 1"
            (DatabricksConnection "h" "p" "t" None None, tt))
  = Raised (AttributeError_None "execute") /\
  filter is_call
    (trace (execute_query example_session "SELECT 1"
              (DatabricksConnection "h" "p" "t" None None, tt))) = [].
Proof.
  destruct (query_without_connection example_session "SELECT 1"
              (DatabricksConnection "h" "p" "t" None None) tt eq_refl)
    as (Hr & _ & Hc & _).
  split; assumption.
Defined.

(** X7: [close] does not disable the handle.  On a handle that stores a
    cursor, an [execute_query] that follows a [close] still calls
    [execute] on that cursor, closed or not; the module itself never
    refuses a query on a closed handle. *)
Theorem execute_after_close_uses_the_closed_cursor
  {W} (C : Collab W) (q : string) (h : handle) (w : W) (k : cursor_id) :
  cursor h = Some k ->
  In (EvCursorClose k) (trace (close C (h, w))) /\
  In (EvExecute k q)
     (trace (execute_query C q (final (close C (h, w))))).
Proof.
  intros Hk. split.
  - unfold_py. rewrite Hk; simpl. repeat next_case; simpl; auto.
  - pose proof (close_keeps_fields C (h, w)) as Hh.
    destruct (final (close C (h, w))) as [h' w']. simpl in Hh. subst h'.
    unfold_py. rewrite Hk; simpl. repeat next_case; simpl; auto.
Qed.

Lemma execute_after_close_uses_the_closed_cursor_witness :
  In (EvCursorClose 8) (trace (close example_session (connected_handle, tt))) /\
  In (EvExecute 8 "SELECT 1")
     (trace (execute_query example_session "SELECT 1"
               (final (close example_session (connected_handle, tt))))).
Proof.
  apply (execute_after_close_uses_the_closed_cursor example_session
           "SELECT 1" connected_handle tt 8).
  reflexivity.
Defined.

(** X8: when [cursor.close()] raises, [close] stops there: the session's
    [close] is not called although a session is stored, nothing is printed,
    and the exception goes to the caller. *)
Theorem failed_cursor_close_skips_the_session
  {W} (C : Collab W) (h : handle) (w w1 : W) (k : cursor_id) (e : exn) :
  cursor h = Some k ->
  cursor_close C k w = (Raised e, w1) ->
  result (close C (h, w)) = Raised e /\
  count (has_kind KConnClose) (trace (close C (h, w))) = 0 /\
  stdout (trace (close C (h, w))) = [].
Proof.
  intros Hk He. unfold_py. rewrite Hk; simpl. rewrite He; simpl.
  repeat split.
Qed.

Lemma failed_cursor_close_skips_the_session_witness :
  result (close stuck_cursor_session (connected_handle, tt))
    = Raised CloseFailure /\
  count (has_kind KConnClose)
    (trace (close stuck_cursor_session (connected_handle, tt))) = 0 /\
  stdout (trace (close stuck_cursor_session (connected_handle, tt))) = [].
Proof.
  apply (failed_cursor_close_skips_the_session stuck_cursor_session
           connected_handle tt tt 8 CloseFailure); reflexivity.
Defined.

Lemma thrown_app (t1 t2 : list event) :
  thrown (t1 ++ t2) = thrown t1 ++ thrown t2.
Proof.
  induction t1 as [|ev t1 IH]; simpl; [reflexivity|].
  destruct ev; simpl; now rewrite IH.
Qed.

Lemma perform_surfaces_what_is_thrown
  {W} (C : Collab W) (o : operation) (s : handle * W) :
  thrown (trace (perform C o s)) = failures [result (perform C o s)].
Proof.
  destruct s as [h w]. destruct o as [|q|q|]; unfold perform, observe;
    run; reflexivity.
Qed.

(** X9: no exception is swallowed and none is invented.  For every
    sequence of operations on a handle, the exceptions that originated (in
    the collaborator or in the interpreter) are exactly the exceptions the
    callers received, one per failed call and in the same order; an
    operation that returns has seen no exception at all. *)
Theorem every_exception_surfaces_once
  {W} (C : Collab W) (ops : list operation) (s : handle * W) :
  thrown (snd (perform_all C ops s))
  = failures (fst (fst (perform_all C ops s))).
Proof.
  revert s. induction ops as [|o ops IH]; intros s; simpl; [reflexivity|].
  pose proof (perform_surfaces_what_is_thrown C o s) as Ho.
  destruct (perform C o s) as [[r s1] t1].
  specialize (IH s1).
  destruct (perform_all C ops s1) as [[rs s2] t2].
  unfold trace, result in Ho. simpl in *.
  rewrite thrown_app, Ho, IH. now destruct r.
Qed.

(** X10: [pull_databricks_data] returns only when no exception originated
    anywhere, [close] included; when it raises, the exception the caller
    receives is the last one that originated, and at most one other
    originated before it (the failure of the body that a failing [close]
    replaced).  A returned value is a table exactly when [as_dataframe] is
    true. *)
Theorem pull_outcome
  {W} (C : Collab W) (host path token q : string) (as_df : bool) (w : W) :
  let x := pull_databricks_data C host path token q as_df w in
  match result x with
  | Returned v =>
      thrown (trace x) = [] /\
      match v with
      | AsDataFrame _ => as_df = true
      | AsRows _ => as_df = false
      end
  | Raised e =>
      thrown (trace x) = [e] \/ exists e0, thrown (trace x) = [e0; e]
  end.
Proof.
  destruct as_df; run; auto; right; eexists; reflexivity.
Qed.

(** A printed line is the diagnostic of one of the listed exceptions. *)
Ltac diagnostic_from es pfx :=
  lazymatch es with
  | ?e :: ?es' =>
      first [ right; right; right; exists e, pfx;
              split; [simpl; auto 6 | split; [simpl; auto | reflexivity]]
            | diagnostic_from es' pfx ]
  end.

Ltac line_ok :=
  lazymatch goal with
  | |- module_line ?es _ =>
      unfold module_line;
      first [ left; reflexivity
            | right; left; reflexivity
            | right; right; left; eexists; reflexivity
            | diagnostic_from es connect_failed
            | diagnostic_from es query_failed
            | diagnostic_from es convert_failed ]
  end.

Ltac lines_ok := repeat (first [apply Forall_nil | apply Forall_cons; [line_ok|]]).

Lemma printed_line_more (t t' : list event) (line : string) :
  printed_line t line ->
  printed_line (t' ++ t) line /\ printed_line (t ++ t') line.
Proof.
  unfold printed_line.
  intros [H|[H|[(rows & cols & df & Hin & Hdf & Hl)
               |(e & pfx & He & Hp & Hl)]]]; split; auto.
  - right; right; left. exists rows, cols, df.
    split; [apply in_or_app; auto | auto].
  - right; right; left. exists rows, cols, df.
    split; [apply in_or_app; auto | auto].
  - right; right; right. exists e, pfx. rewrite thrown_app.
    split; [apply in_or_app; auto | auto].
  - right; right; right. exists e, pfx. rewrite thrown_app.
    split; [apply in_or_app; auto | auto].
Qed.

(** Membership in a list that is given element by element. *)
Ltac in_list := solve [ simpl; repeat (first [left; reflexivity | right]) ].

Ltac printed_diagnostic es pfx :=
  lazymatch es with
  | ?e :: ?es' =>
      first [ right; right; right; exists e, pfx;
              split; [in_list | split; [in_list | reflexivity]]
            | printed_diagnostic es' pfx ]
  end.

Ltac printed_line_ok :=
  lazymatch goal with
  | |- printed_line ?t _ =>
      let es := eval simpl in (thrown t) in
      unfold printed_line;
      first [ left; reflexivity
            | right; left; reflexivity
            | right; right; left; do 3 eexists;
              (split; [| split; [eassumption | reflexivity]]); in_list
            | printed_diagnostic es connect_failed
            | printed_diagnostic es query_failed
            | printed_diagnostic es convert_failed ]
  end.

Ltac printed_lines_ok :=
  repeat (first [apply Forall_nil | apply Forall_cons; [printed_line_ok|]]).

Lemma perform_prints_its_lines
  {W} (C : Collab W) (o : operation) (s : handle * W) :
  Forall (printed_line (trace (perform C o s)))
         (stdout (trace (perform C o s))).
Proof.
  destruct s as [h w]. destruct o as [|q|q|]; unfold perform, observe;
    run; printed_lines_ok.
Qed.

(** X11: the handle's methods print nothing but the module's own
    messages.  Whatever operations are run, every line written is the
    "Connected to Databricks" or the "Connection closed" line, the
    "Retrieved n rows" line with n the row count of a table that the
    constructor returned during the run, or one of the three diagnostic
    prefixes followed by the text of an exception that originated during
    the run. *)
Theorem only_module_lines_are_printed
  {W} (C : Collab W) (ops : list operation) (s : handle * W) :
  Forall (printed_line (snd (perform_all C ops s)))
         (stdout (snd (perform_all C ops s))).
Proof.
  revert s. induction ops as [|o ops IH]; intros s; simpl; [constructor|].
  pose proof (perform_prints_its_lines C o s) as Ho.
  destruct (perform C o s) as [[r s1] t1].
  specialize (IH s1).
  destruct (perform_all C ops s1) as [[rs s2] t2].
  unfold trace in Ho. simpl in *.
  rewrite stdout_app. apply Forall_app. split.
  - eapply Forall_impl; [|exact Ho].
    intros line Hl. exact (proj2 (printed_line_more _ _ _ Hl)).
  - eapply Forall_impl; [|exact IH].
    intros line Hl. exact (proj1 (printed_line_more _ _ _ Hl)).
Qed.

(** X12: the same holds for the entry point: every line
    [pull_databricks_data] prints is a status line or a diagnostic prefix
    followed by the text of an exception that originated in the call. *)
Theorem pull_prints_only_module_lines
  {W} (C : Collab W) (host path token q : string) (as_df : bool) (w : W) :
  Forall (module_line
            (thrown (trace (pull_databricks_data C host path token q as_df w))))
         (stdout (trace (pull_databricks_data C host path token q as_df w))).
Proof.
  destruct as_df; run; lines_ok.
Qed.

(** X13: nothing is retried.  In one call of [pull_databricks_data], each
    kind of collaborator call ([sql.connect], [cursor()], [execute],
    [fetchall], [description], the table constructor, the two [close]) is
    made at most once, whatever fails. *)
Theorem pull_calls_each_collaborator_once
  {W} (C : Collab W) (host path token q : string) (as_df : bool) (w : W)
  (kd : call_kind) :
  count (has_kind kd)
    (trace (pull_databricks_data C host path token q as_df w)) <= 1.
Proof.
  destruct as_df; run; destruct kd; unfold count; simpl; lia.
Qed.

(** X14: when the cursor has no description after the query (a statement
    without result set), [query_to_dataframe] fails although the query was
    executed and its rows fetched: it raises the [TypeError] of the
    iteration over [None], prints one diagnostic, never calls the table
    constructor, and the fetched rows are lost to the caller. *)
Theorem query_to_dataframe_without_description
  {W} (C : Collab W) (q : string) (h : handle) (k : cursor_id)
  (w w1 w2 w3 : W) (rows : list row) :
  cursor h = Some k ->
  cursor_execute C k q w = (Returned tt, w1) ->
  cursor_fetchall C k w1 = (Returned rows, w2) ->
  cursor_description C k w2 = (Returned None, w3) ->
  result (query_to_dataframe C q (h, w)) = Raised TypeError_not_iterable /\
  filter is_call (trace (query_to_dataframe C q (h, w)))
    = [EvExecute k q; EvFetchall k; EvDescription k] /\
  stdout (trace (query_to_dataframe C q (h, w)))
    = [ (convert_failed ++ "'NoneType' object is not iterable")%string ].
Proof.
  intros Hk He Hf Hd. unfold_py. rewrite Hk; simpl. rewrite He; simpl.
  rewrite Hf; simpl. rewrite Hk; simpl. rewrite Hd; simpl.
  repeat split.
Qed.

Lemma query_to_dataframe_without_description_witness :
  result (query_to_dataframe no_result_set_session "CREATE TABLE t (id INT)"
            (connected_handle, tt)) = Raised TypeError_not_iterable /\
  filter is_call
    (trace (query_to_dataframe no_result_set_session "CREATE TABLE t (id INT)"
              (connected_handle, tt)))
    = [ EvExecute 8 "CREATE TABLE t (id INT)"; EvFetchall 8;
        EvDescription 8 ] /\
  stdout (trace (query_to_dataframe no_result_set_session
                   "CREATE TABLE t (id INT)" (connected_handle, tt)))
    = [ (convert_failed ++ "'NoneType' object is not iterable")%string ].
Proof.
  apply (query_to_dataframe_without_description no_result_set_session
           "CREATE TABLE t (id INT)" connected_handle 8 tt tt tt tt []);
    reflexivity.
Defined.

(** X15: the order of a successful call with [as_dataframe=True]: the
    collaborator is called for [sql.connect] (with authentication type
    "pat"), [cursor()], [execute], [fetchall], [description], the table
    constructor (with the fetched rows and the item 0 of every description
    entry), then [cursor.close()] and [connection.close()]; three lines are
    printed, and the table built from the rows is returned. *)
Theorem pull_dataframe_success
  {W} (C : Collab W) (host path token q : string)
  (w w1 w2 w3 w4 w5 w6 w7 : W) (c : conn) (k : cursor_id)
  (rows : list row) (ds : list desc) :
  sql_connect C host path "pat" token w = (Returned c, w1) ->
  connection_cursor C c w1 = (Returned k, w2) ->
  cursor_execute C k q w2 = (Returned tt, w3) ->
  cursor_fetchall C k w3 = (Returned rows, w4) ->
  cursor_description C k w4 = (Returned (Some ds), w5) ->
  rows_fit (length ds) rows ->
  cursor_close C k w5 = (Returned tt, w6) ->
  connection_close C c w6 = (Returned tt, w7) ->
  let x := pull_databricks_data C host path token q true w in
  result x
    = Returned (AsDataFrame {| columns := map d_name ds; data := rows |}) /\
  filter is_call (trace x)
    = [ EvSqlConnect host path "pat" token; EvCursor c; EvExecute k q;
        EvFetchall k; EvDescription k; EvDataFrame rows (map d_name ds);
        EvCursorClose k; EvConnClose c ] /\
  stdout (trace x)
    = [ "✓ Connected to Databricks";
        ("✓ Retrieved " ++ str_nat (length rows) ++ " rows")%string;
        "✓ Connection closed" ].
Proof.
  intros H1 H2 H3 H4 H5 Hfit H6 H7 x. subst x.
  assert (Ht : pd_DataFrame rows (map d_name ds)
               = Returned {| columns := map d_name ds; data := rows |}).
  { apply pd_DataFrame_fits. now rewrite length_map. }
  unfold_py. rewrite H1; simpl. rewrite H2; simpl. rewrite H3; simpl.
  rewrite H4; simpl. rewrite H5; simpl. rewrite Ht; simpl.
  rewrite H6; simpl. rewrite H7; simpl. repeat split.
Qed.

Lemma pull_dataframe_success_witness :
  result (pull_databricks_data example_session "h" "p" "t"
            "SELECT id, name FROM t" true tt)
    = Returned (AsDataFrame {| columns := ["id"; "name"];
                               data := example_rows |}) /\
  filter is_call
    (trace (pull_databricks_data example_session "h" "p" "t"
              "SELECT id, name FROM t" true tt))
    = [ EvSqlConnect "h" "p" "pat" "t"; EvCursor 7;
        EvExecute 8 "SELECT id, name FROM t";
        EvFetchall 8; EvDescription 8;
        EvDataFrame example_rows ["id"; "name"];
        EvCursorClose 8; EvConnClose 7 ] /\
  stdout (trace (pull_databricks_data example_session "h" "p" "t"
                   "SELECT id, name FROM t" true tt))
    = [ "✓ Connected to Databricks"; "✓ Retrieved 2 rows";
        "✓ Connection closed" ].
Proof.
  apply (pull_dataframe_success example_session "h" "p" "t"
           "SELECT id, name FROM t" tt tt tt tt tt tt tt tt 7 8
           example_rows example_description);
    try reflexivity.
  repeat constructor.
Defined.

(** X16: an empty result set is not an error: when [fetchall] returns no
    row, [query_to_dataframe] returns the table of 0 rows that has the
    columns of the description, and prints that it retrieved 0 rows. *)
Theorem query_to_dataframe_empty_result
  {W} (C : Collab W) (q : string) (h : handle) (k : cursor_id)
  (w w1 w2 w3 : W) (ds : list desc) :
  cursor h = Some k ->
  cursor_execute C k q w = (Returned tt, w1) ->
  cursor_fetchall C k w1 = (Returned [], w2) ->
  cursor_description C k w2 = (Returned (Some ds), w3) ->
  result (query_to_dataframe C q (h, w))
    = Returned {| columns := map d_name ds; data := [] |} /\
  stdout (trace (query_to_dataframe C q (h, w))) = ["✓ Retrieved 0 rows"].
Proof.
  intros Hk He Hf Hd.
  destruct (query_to_dataframe_is_pd_DataFrame C q h k w w1 w2 w3 [] ds
              Hk He Hf Hd) as [Hr Hs].
  rewrite Hr, Hs. split; reflexivity.
Qed.

Lemma query_to_dataframe_empty_result_witness :
  result (query_to_dataframe empty_result_session "SELECT id, name FROM t"
            (connected_handle, tt))
    = Returned {| columns := ["id"; "name"]; data := [] |} /\
  stdout (trace (query_to_dataframe empty_result_session
                   "SELECT id, name FROM t" (connected_handle, tt)))
    = ["✓ Retrieved 0 rows"].
Proof.
  apply (query_to_dataframe_empty_result empty_result_session
           "SELECT id, name FROM t" connected_handle 8 tt tt tt tt
           example_description); reflexivity.
Defined.
